(** * Adapter discovery and removal logic of the NSIS driverlogic plugin

    A shallow embedding of [context.cpp] (property readers, [GetTapAdapters],
    [Context::FindMullvadAdapter], [Context::getAdapter],
    [Context::DeleteOldMullvadAdapter]) and of the exported entry points of
    [driverlogic.cpp], together with the properties the design document
    states about them.

    The Windows device database is an oracle ([Win32.Device], [Win32.Host]):
    every SetupAPI / registry call the source makes is a field of it, with the
    status and [GetLastError] value the call reports.  Exceptions are an
    explicit result ([Throw]); dereferencing a past-the-end iterator and
    signed overflow of a loop counter are the result [Undefined]. *)

From Stdlib Require Import ZArith List String Ascii Bool Lia Sorted.
From Stdlib Require DecimalString.
Import ListNotations.
Open Scope string_scope.
Open Scope list_scope.
Open Scope Z_scope.

(* ------------------------------------------------------------------------- *)
(** ** Wide strings and the C runtime comparisons *)

Module WString.

(** [wchar_t] is a 16-bit code unit on Windows. *)
Definition wchar_t := Z.
Definition wstring := list wchar_t.

(** The wide literal [L"..."] of a narrow literal; also what
    [std::wstring(msg.begin(), msg.end())] builds from a narrow string. *)
Definition L (s : string) : wstring :=
  map (fun a => Z.of_N (N_of_ascii a)) (list_ascii_of_string s).

(** [s.c_str()] read as a C string: the code units before the first NUL. *)
Fixpoint c_str (s : wstring) : wstring :=
  match s with
  | [] => []
  | c :: rest => if c =? 0 then [] else c :: c_str rest
  end.

(** Lexicographic comparison of code units; the sign is what [wcscmp] and
    [std::wstring::compare] return. *)
Fixpoint lex_compare (a b : wstring) : Z :=
  match a, b with
  | [], [] => 0
  | [], _ :: _ => -1
  | _ :: _, [] => 1
  | x :: a', y :: b' =>
      if x <? y then -1 else if y <? x then 1 else lex_compare a' b'
  end.

(** [wcscmp(p, q)] on two C strings. *)
Definition wcscmp (p q : wstring) : Z := lex_compare p q.

(** [std::wstring::compare]: the whole strings, embedded NULs included. *)
Definition compare (s t : wstring) : Z := lex_compare s t.

(** [towlower] in the "C" locale, the locale of a process that never calls
    [setlocale]: only A-Z are mapped. *)
Definition towlower (c : wchar_t) : wchar_t :=
  if (65 <=? c) && (c <=? 90) then c + 32 else c.

(** [_wcsicmp(p, q)]: [wcscmp] of the lower-cased C strings. *)
Definition _wcsicmp (p q : wstring) : Z :=
  lex_compare (map towlower p) (map towlower q).

(** [ss << i] for a non-negative [int]: its decimal digits. *)
Definition decimal (i : nat) : wstring :=
  L (DecimalString.NilZero.string_of_uint (Nat.to_uint i)).

End WString.
Export WString.

(* ------------------------------------------------------------------------- *)
(** ** Results of a call: a value, a C++ exception, or undefined behaviour *)

Definition DWORD := Z.

(** The exceptions the plugin throws, all derived from [std::exception]:
    [THROW_WINDOWS_ERROR(code, operation)] and [THROW_ERROR(message)]. *)
Inductive exception : Type :=
| WindowsError (code : DWORD) (operation : string)
| RuntimeError (message : string).

Inductive outcome (A : Type) : Type :=
| Return (a : A)
| Throw (e : exception)
| Undefined.
Arguments Return {A} a.
Arguments Throw {A} e.
Arguments Undefined {A}.

Definition bind {A B : Type} (m : outcome A) (f : A -> outcome B) : outcome B :=
  match m with
  | Return a => f a
  | Throw e => Throw e
  | Undefined => Undefined
  end.

(** What a call leaves behind apart from its result: the device-list handles
    it takes and releases, the devices it asks the system to remove, and the
    lines it writes to the installer log. *)
Inductive event : Type :=
| GetClassDevs
| DestroyDeviceInfoList
| RemoveDevice (memberIndex : Z)
| PluginLog (message : wstring)
| PluginLogWithDetails (description : wstring) (details : list wstring).

(** A traced computation: the result and the events in the order they
    happened. *)
Definition traced (A : Type) : Type := (outcome A * list event)%type.

Definition ret {A : Type} (a : A) : traced A := (Return a, []).
Definition throw {A : Type} (e : exception) : traced A := (Throw e, []).
Definition undefined {A : Type} : traced A := (Undefined, []).
Definition lift {A : Type} (m : outcome A) : traced A := (m, []).
Definition emit (ev : event) : traced unit := (Return tt, [ev]).

Definition tbind {A B : Type} (m : traced A) (f : A -> traced B) : traced B :=
  match m with
  | (Return a, t) => let (r, t') := f a in (r, t ++ t')
  | (Throw e, t) => (Throw e, t)
  | (Undefined, t) => (Undefined, t)
  end.

(** [try { body } catch (const std::exception &e) { handler }]. *)
Definition try_catch {A : Type} (body : traced A) (handler : exception -> traced A)
  : traced A :=
  match body with
  | (Throw e, t) => let (r, t') := handler e in (r, t ++ t')
  | other => other
  end.

(** A [ScopeDestructor] registered before [body]: its action runs when the
    scope is left, by return or by exception. *)
Definition scope_exit {A : Type} (action : event) (body : traced A) : traced A :=
  match body with
  | (Undefined, t) => (Undefined, t)
  | (r, t) => (r, t ++ [action])
  end.

Declare Scope traced_scope.
Delimit Scope traced_scope with traced.
Notation "x <- m ;; k" := (tbind m (fun x => k))
  (at level 61, m at next level, right associativity) : traced_scope.
Notation "m ;;; k" := (tbind m (fun _ => k))
  (at level 61, right associativity) : traced_scope.
Notation "x <-- m ;; k" := (bind m (fun x => k))
  (at level 61, m at next level, right associativity) : traced_scope.
Open Scope traced_scope.

(* ------------------------------------------------------------------------- *)
(** ** The system the plugin runs on *)

Module Win32.

Definition dword (z : Z) : DWORD := z mod 2 ^ 32.

(** winerror.h, setupapi.h, limits.h, windef.h *)
Definition ERROR_SUCCESS : DWORD := 0.
Definition ERROR_INVALID_DATA : DWORD := 13.
Definition ERROR_INSUFFICIENT_BUFFER : DWORD := 122.
Definition ERROR_NO_MORE_ITEMS : DWORD := 259.
Definition SPDRP_HARDWAREID : DWORD := 1.
Definition INT_MAX : Z := 2147483647.
Definition MAX_PATH : Z := 260.
Definition sizeof_wchar_t : Z := 2.

(** devpkey.h; the plugin reads one key. *)
Inductive DEVPROPKEY : Type := DEVPKEY_Device_DriverDesc.

Definition GUID := Z.

(** One member of a device information set: what each call the plugin makes
    on it reports.  A sizing call gives its BOOL result, the value of
    [GetLastError] after it, and [requiredSize]; a fill call, given the byte
    size of the buffer, gives [inl] of [GetLastError] when it returns FALSE
    and [inr] of the code units it wrote when it returns TRUE. *)
Record Device : Type := {
  SetupDiGetDeviceRegistryPropertyW_size : DWORD -> bool * DWORD * DWORD;
  SetupDiGetDeviceRegistryPropertyW_fill : DWORD -> DWORD -> DWORD + list wchar_t;
  SetupDiGetDevicePropertyW_size : DEVPROPKEY -> bool * DWORD * DWORD;
  SetupDiGetDevicePropertyW_fill : DEVPROPKEY -> DWORD -> DWORD + list wchar_t;
  (** [inl] of [GetLastError] when the key is INVALID_HANDLE_VALUE *)
  SetupDiOpenDevRegKey : DWORD + unit;
  (** [RegGetValueW(hNet, nullptr, L"NetCfgInstanceId", ...)] with a buffer of
      the given byte size: status, code units written, [strSize] on return *)
  RegGetValueW_NetCfgInstanceId : DWORD -> DWORD * list wchar_t * DWORD;
  (** [requiredSize] of the sizing call, in characters *)
  SetupDiGetDeviceInstanceIdW_size : DWORD;
  SetupDiGetDeviceInstanceIdW_fill : DWORD -> DWORD + list wchar_t;
  (** [inl] of [GetLastError] when the removal returns FALSE *)
  SetupDiRemoveDevice : DWORD + unit
}.

(** The host: the present network-class devices as one call of
    [SetupDiGetClassDevs] sees them, and the libcommon helpers whose code is
    outside the plugin.  A device information set is its members in index
    order together with the error [SetupDiEnumDeviceInfo] reports at the
    first index it refuses.  The plugin is single-threaded and nothing else
    changes the device database during a call, so the two enumerations of
    [DeleteOldMullvadAdapter] see the same set. *)
Record Host : Type := {
  SetupDiGetClassDevs : DWORD + (list Device * DWORD);
  Guid_FromString : wstring -> exception + GUID;
  Nci_ctor : option exception;
  Nci_getConnectionName : GUID -> exception + wstring;
  (** return value of [GetModuleFileNameW] on the plugin module *)
  GetModuleFileNameW_self : DWORD;
  (** [what()] of the exception [THROW_WINDOWS_ERROR] builds *)
  WindowsError_what : DWORD -> string -> string
}.

Definition what (h : Host) (e : exception) : string :=
  match e with
  | WindowsError code operation => WindowsError_what h code operation
  | RuntimeError message => message
  end.

(** A [std::vector<wchar_t>] of [n] zero-initialised elements after the
    system wrote [written] at its start. *)
Definition buffer (n : Z) (written : list wchar_t) : list wchar_t :=
  firstn (Z.to_nat n) (written ++ repeat 0 (Z.to_nat n)).

(** [v[i] = c] for [0 <= i < v.size()]. *)
Definition store (v : list wchar_t) (i : Z) (c : wchar_t) : list wchar_t :=
  firstn (Z.to_nat i) v ++ c :: skipn (S (Z.to_nat i)) v.

End Win32.
Export Win32.

(* ------------------------------------------------------------------------- *)
(** ** context.cpp *)

Module Context.

(** An object of class [Context], as [new Context] creates it; the class
    has no state the functions below read. *)
Inductive instance : Type := new_Context.

Record NetworkAdapter : Type := {
  guid : wstring;
  name : wstring;
  alias : wstring;
  deviceInstanceId : wstring
}.

(** Modelled from the spec: [NetworkAdapter::operator<] is declared in
    context.h, which is not among the sources.  The design document has the
    records "totally ordered (by identifying string, for stable set
    membership/dedup)": the order of [std::set<NetworkAdapter>] is the order
    of the [guid] strings. *)
Definition NetworkAdapter_lt (a b : NetworkAdapter) : bool :=
  compare (guid a) (guid b) <? 0.

(** [std::set<NetworkAdapter>]: its elements in iteration order. *)
Definition set := list NetworkAdapter.

Definition size (s : set) : Z := Z.of_nat (List.length s).
Definition empty (s : set) : bool := match s with [] => true | _ => false end.

(** [s.emplace(x)]: [x] is inserted at its place unless an element
    equivalent to it (neither less than the other) is there already. *)
Fixpoint emplace (x : NetworkAdapter) (s : set) : set :=
  match s with
  | [] => [x]
  | y :: s' =>
      if NetworkAdapter_lt x y then x :: y :: s'
      else if NetworkAdapter_lt y x then y :: emplace x s'
      else y :: s'
  end.

(** Iterators are positions; [s.end()] is the position after the last
    element and dereferencing it is undefined. *)
Definition iterator := nat.
Definition begin (s : set) : iterator := 0%nat.
Definition deref (s : set) (it : iterator) : traced NetworkAdapter :=
  match nth_error s it with
  | Some a => ret a
  | None => undefined
  end.

Definition TAP_HARDWARE_ID : wstring := L "tapmullvad0901".
Definition DEPRECATED_TAP_HARDWARE_ID : wstring := L "tap0901".

Definition LogAdapters (description : wstring) (adapters : set) : traced unit :=
  let details :=
    flat_map (fun adapter =>
      [ L "Adapter";
        L "    Guid: " ++ guid adapter;
        L "    Name: " ++ name adapter;
        L "    Alias: " ++ alias adapter ]) adapters in
  emit (PluginLogWithDetails description details).

(** [instanceId[strSize / sizeof(wchar_t)] = L'\0'] writes past the end of
    the vector when [RegGetValueW] reports the whole buffer as used. *)
Definition GetNetCfgInstanceId (devInfoData : Device) : outcome wstring :=
  match SetupDiOpenDevRegKey devInfoData with
  | inl lastError => Throw (WindowsError lastError "SetupDiOpenDevRegKey")
  | inr _ =>
      (* MAX_PATH + sizeof(L'\0') elements *)
      let instanceId_size := MAX_PATH + sizeof_wchar_t in
      let '(status, written, strSize) :=
        RegGetValueW_NetCfgInstanceId devInfoData
          (dword (instanceId_size * sizeof_wchar_t)) in
      if negb (status =? ERROR_SUCCESS) then
        Throw (WindowsError status "RegGetValueW")
      else
        let instanceId := buffer instanceId_size written in
        let i := strSize / sizeof_wchar_t in
        if i <? instanceId_size then Return (c_str (store instanceId i 0))
        else Undefined
  end.

Definition GetDeviceInstanceId (devInfoData : Device) : outcome wstring :=
  let requiredSize := SetupDiGetDeviceInstanceIdW_size devInfoData in
  let deviceInstanceId_size := 1 + requiredSize * sizeof_wchar_t in
  match SetupDiGetDeviceInstanceIdW_fill devInfoData (dword deviceInstanceId_size) with
  | inl lastError =>
      Throw (WindowsError lastError "SetupDiGetDeviceInstanceIdW() failed")
  | inr written => Return (c_str (buffer deviceInstanceId_size written))
  end.

Definition GetDeviceStringProperty (devInfoData : Device) (property : DEVPROPKEY)
  : outcome wstring :=
  let '(sizeStatus, lastError, requiredSize) :=
    SetupDiGetDevicePropertyW_size devInfoData property in
  if negb sizeStatus && negb (lastError =? ERROR_INSUFFICIENT_BUFFER) then
    Throw (WindowsError lastError "SetupDiGetDevicePropertyW")
  else
    let buffer_size := 1 + requiredSize / sizeof_wchar_t in
    match SetupDiGetDevicePropertyW_fill devInfoData property
            (dword (buffer_size * sizeof_wchar_t)) with
    | inl lastError' => Throw (WindowsError lastError' "Failed to read device property")
    | inr written => Return (c_str (buffer buffer_size written))
    end.

Definition GetDeviceRegistryStringProperty (devInfoData : Device) (property : DWORD)
  : outcome (option wstring) :=
  let '(sizeStatus, lastError, requiredSize) :=
    SetupDiGetDeviceRegistryPropertyW_size devInfoData property in
  if negb sizeStatus && negb (lastError =? ERROR_INSUFFICIENT_BUFFER) then
    (* ERROR_INVALID_DATA may mean that the property does not exist *)
    if negb (lastError =? ERROR_INVALID_DATA) then
      Throw (WindowsError lastError "SetupDiGetDeviceRegistryPropertyW")
    else Return None
  else
    let buffer_size := 1 + requiredSize / sizeof_wchar_t in
    match SetupDiGetDeviceRegistryPropertyW_fill devInfoData property
            (dword (buffer_size * sizeof_wchar_t)) with
    | inl lastError' => Throw (WindowsError lastError' "Failed to read device property")
    | inr written => Return (Some (c_str (buffer buffer_size written)))
    end.

Definition of_sum {A : Type} (r : exception + A) : outcome A :=
  match r with
  | inl e => Throw e
  | inr a => Return a
  end.

(** The body of the [try] block of [GetTapAdapters] up to the constructed
    record.  C++ leaves the order in which the constructor's arguments are
    evaluated open; it decides only which exception is caught when several
    of the calls fail. *)
Definition construct_NetworkAdapter (h : Host) (devInfoData : Device)
  : outcome NetworkAdapter :=
  guid <-- GetNetCfgInstanceId devInfoData ;;
  guidObj <-- of_sum (Guid_FromString h guid) ;;
  name <-- GetDeviceStringProperty devInfoData DEVPKEY_Device_DriverDesc ;;
  alias <-- of_sum (Nci_getConnectionName h guidObj) ;;
  deviceInstanceId <-- GetDeviceInstanceId devInfoData ;;
  Return {| guid := guid; name := name; alias := alias;
            deviceInstanceId := deviceInstanceId |}.

Definition skip_message (h : Host) (e : exception) : wstring :=
  L (String.append "Skipping TAP adapter due to exception caught while iterating: "
       (what h e)).

(** [for (int memberIndex = 0; ; memberIndex++)] of [GetTapAdapters], from
    the member at [memberIndex] on; [members] are the members
    [SetupDiEnumDeviceInfo] still yields and [lastError] the error it
    reports after them. *)
Fixpoint GetTapAdapters_loop (h : Host) (tapHardwareId : wstring)
    (members : list Device) (lastError : DWORD)
    (memberIndex : Z) (adapters : set) : traced set :=
  match members with
  | [] =>
      if lastError =? ERROR_NO_MORE_ITEMS then ret adapters
      else throw (WindowsError lastError
             "SetupDiEnumDeviceInfo() failed while enumerating network adapters")
  | devInfoData :: rest =>
      let next adapters' :=
        if memberIndex =? INT_MAX then undefined
        else GetTapAdapters_loop h tapHardwareId rest lastError
               (memberIndex + 1) adapters' in
      hardwareId <- lift (GetDeviceRegistryStringProperty devInfoData SPDRP_HARDWAREID) ;;
      match hardwareId with
      | None => next adapters
      | Some value =>
          if negb (wcscmp (c_str value) (c_str tapHardwareId) =? 0) then
            next adapters
          else
            adapters' <-
              try_catch
                (adapter <- lift (construct_NetworkAdapter h devInfoData) ;;
                 ret (emplace adapter adapters))
                (fun e => emit (PluginLog (skip_message h e)) ;;; ret adapters) ;;
            next adapters'
      end
  end.

Definition GetTapAdapters (h : Host) (tapHardwareId : wstring) : traced set :=
  emit GetClassDevs ;;;
  match SetupDiGetClassDevs h with
  | inl lastError => throw (WindowsError lastError "SetupDiGetClassDevs() failed")
  | inr (members, lastError) =>
      scope_exit DestroyDeviceInfoList
        match Nci_ctor h with
        | Some e => throw e
        | None => GetTapAdapters_loop h tapHardwareId members lastError 0 []
        end
  end.

(** The lambda of [FindMullvadAdapter]; [None] is [adapters.end()]. *)
Definition findByAlias (adapters : set) (alias' : wstring) : option NetworkAdapter :=
  find (fun candidate => _wcsicmp (c_str (alias candidate)) (c_str alias') =? 0)
       adapters.

Definition baseAlias : wstring := L "Mullvad".

(** [ss << baseAlias << L"-" << i] *)
Definition suffixed_alias (i : nat) : wstring := baseAlias ++ L "-" ++ decimal i.

(** [for (auto i = 0; i < 10; ++i)] over the values [i] still to run. *)
Fixpoint probe (tapAdapters : set) (indices : list nat) : option NetworkAdapter :=
  match indices with
  | [] => None
  | i :: rest =>
      match findByAlias tapAdapters (suffixed_alias i) with
      | Some mullvadAdapter => Some mullvadAdapter
      | None => probe tapAdapters rest
      end
  end.

Definition FindMullvadAdapter (tapAdapters : set) : option NetworkAdapter :=
  if empty tapAdapters then None
  else
    match findByAlias tapAdapters baseAlias with
    | Some mullvadAdapter => Some mullvadAdapter
    | None => probe tapAdapters (seq 0 10)
    end.

Definition getAdapter (h : Host) : traced NetworkAdapter :=
  added <- GetTapAdapters h TAP_HARDWARE_ID ;;
  (if 1 <? size added then
     LogAdapters (L "Enumerable network TAP adapters") added ;;;
     throw (RuntimeError "Identified more TAP adapters than expected")
   else ret tt) ;;;
  deref added (begin added).

Inductive DeletionResult : Type :=
| NO_REMAINING_TAP_ADAPTERS
| SOME_REMAINING_TAP_ADAPTERS.

(** The second loop of the file, in [DeleteOldMullvadAdapter]; it yields
    [numRemainingAdapters]. *)
Fixpoint DeleteOldMullvadAdapter_loop (mullvadGuid : wstring)
    (members : list Device) (lastError : DWORD)
    (memberIndex : Z) (numRemainingAdapters : Z) : traced Z :=
  match members with
  | [] =>
      if lastError =? ERROR_NO_MORE_ITEMS then ret numRemainingAdapters
      else throw (WindowsError lastError "Error enumerating network adapters")
  | devInfoData :: rest =>
      let next n :=
        if memberIndex =? INT_MAX then undefined
        else DeleteOldMullvadAdapter_loop mullvadGuid rest lastError
               (memberIndex + 1) n in
      hardwareId <- lift (GetDeviceRegistryStringProperty devInfoData SPDRP_HARDWAREID) ;;
      match hardwareId with
      | None => next numRemainingAdapters
      | Some value =>
          if wcscmp DEPRECATED_TAP_HARDWARE_ID (c_str value) =? 0 then
            instanceId <- lift (GetNetCfgInstanceId devInfoData) ;;
            if negb (compare instanceId mullvadGuid =? 0) then
              if numRemainingAdapters =? INT_MAX then undefined
              else next (numRemainingAdapters + 1)
            else
              emit (RemoveDevice memberIndex) ;;;
              match SetupDiRemoveDevice devInfoData with
              | inl lastError' =>
                  throw (WindowsError lastError' "Error removing Mullvad TAP device")
              | inr _ => next numRemainingAdapters
              end
          else next numRemainingAdapters
      end
  end.

Definition DeleteOldMullvadAdapter (h : Host) : traced DeletionResult :=
  tapAdapters <- GetTapAdapters h DEPRECATED_TAP_HARDWARE_ID ;;
  match FindMullvadAdapter tapAdapters with
  | None => throw (RuntimeError "Mullvad TAP adapter not found")
  | Some mullvadAdapter =>
      let mullvadGuid := guid mullvadAdapter in
      emit GetClassDevs ;;;
      match SetupDiGetClassDevs h with
      | inl lastError => throw (WindowsError lastError "SetupDiGetClassDevs() failed")
      | inr (members, lastError) =>
          scope_exit DestroyDeviceInfoList
            (numRemainingAdapters <-
               DeleteOldMullvadAdapter_loop mullvadGuid members lastError 0 0 ;;
             ret (if 0 <? numRemainingAdapters
                  then SOME_REMAINING_TAP_ADAPTERS
                  else NO_REMAINING_TAP_ADAPTERS))
      end
  end.

End Context.

(* ------------------------------------------------------------------------- *)
(** ** driverlogic.cpp *)

Module DriverLogic.
Import Context.

(** [enum NsisStatus] of ../error.h *)
Inductive NsisStatus : Type :=
| GENERAL_ERROR
| SUCCESS.

Module RemoveOldMullvadTapStatus.
Inductive t : Type :=
| GENERAL_ERROR
| SUCCESS_NO_REMAINING_TAP_ADAPTERS
| SUCCESS_SOME_REMAINING_TAP_ADAPTERS.

Definition value (s : t) : Z :=
  match s with
  | GENERAL_ERROR => 0
  | SUCCESS_NO_REMAINING_TAP_ADAPTERS => 1
  | SUCCESS_SOME_REMAINING_TAP_ADAPTERS => 2
  end.
End RemoveOldMullvadTapStatus.

(** What the plugin pushes on the NSIS stack. *)
Inductive stack_t : Type :=
| string_entry (s : wstring)
| NsisStatus_entry (status : NsisStatus)
| RemoveOldMullvadTapStatus_entry (status : RemoveOldMullvadTapStatus.t).

(** The plugin module between calls: the global [g_context] ([None] is
    [nullptr]) and the NSIS stack, top first. *)
Record plugin : Type := {
  g_context : option instance;
  stacktop : list stack_t
}.

Definition initial : plugin := {| g_context := None; stacktop := [] |}.

Definition push (e : stack_t) (p : plugin) : plugin :=
  {| g_context := g_context p; stacktop := e :: stacktop p |}.
Definition pushstring (s : wstring) : plugin -> plugin := push (string_entry s).
Definition pushint (status : NsisStatus) : plugin -> plugin :=
  push (NsisStatus_entry status).
Definition pushint' (status : RemoveOldMullvadTapStatus.t) : plugin -> plugin :=
  push (RemoveOldMullvadTapStatus_entry status).
Definition set_g_context (c : option instance) (p : plugin) : plugin :=
  {| g_context := c; stacktop := stacktop p |}.

(** [common::string::ToWide(err.what())] *)
Definition ToWide_what (h : Host) (err : exception) : wstring := L (what h err).

(** The 100 [LoadLibraryW] calls that follow have no result the plugin
    looks at. *)
Definition PinDll (h : Host) : traced unit :=
  if GetModuleFileNameW_self h =? 0 then
    throw (RuntimeError "Failed to pin plugin module")
  else ret tt.

(** The assignment to [g_context] is made before [PinDll] runs and stays
    when [PinDll] throws. *)
Definition Initialize (h : Host) (p : plugin) : traced plugin :=
  match g_context p with
  | None =>
      let p' := set_g_context (Some new_Context) p in
      try_catch
        (PinDll h ;;; ret (pushint SUCCESS (pushstring (L "") p')))
        (fun err => ret (pushint GENERAL_ERROR (pushstring (ToWide_what h err) p')))
  | Some _ => ret (pushint SUCCESS (pushstring (L "") p))
  end.

(** [pushstring(L"")] precedes the call of [DeleteOldMullvadAdapter]: the
    empty string is on the stack in the handlers too. *)
Definition RemoveOldMullvadTap (h : Host) (p : plugin) : traced plugin :=
  let p' := pushstring (L "") p in
  try_catch
    (result <- DeleteOldMullvadAdapter h ;;
     match result with
     | NO_REMAINING_TAP_ADAPTERS =>
         ret (pushint' RemoveOldMullvadTapStatus.SUCCESS_NO_REMAINING_TAP_ADAPTERS p')
     | SOME_REMAINING_TAP_ADAPTERS =>
         ret (pushint' RemoveOldMullvadTapStatus.SUCCESS_SOME_REMAINING_TAP_ADAPTERS p')
     end)
    (fun err =>
       ret (pushint' RemoveOldMullvadTapStatus.GENERAL_ERROR
              (pushstring (ToWide_what h err) p'))).

Definition not_initialized_message : wstring :=
  L "Initialize() function was not called or was not successful".

Definition IdentifyNewAdapter (h : Host) (p : plugin) : traced plugin :=
  match g_context p with
  | None => ret (pushint GENERAL_ERROR (pushstring not_initialized_message p))
  | Some _ =>
      try_catch
        (adapter <- getAdapter h ;;
         ret (pushint SUCCESS (pushstring (c_str (alias adapter)) p)))
        (fun err => ret (pushint GENERAL_ERROR (pushstring (ToWide_what h err) p)))
  end.

(** [delete g_context] on [nullptr] does nothing. *)
Definition Deinitialize (h : Host) (p : plugin) : traced plugin :=
  ret (set_g_context None (pushint SUCCESS (pushstring (L "") p))).

End DriverLogic.

(* ------------------------------------------------------------------------- *)
(** ** A device database for examples *)

Module Fake.
Import Context.

(** An adapter as the examples describe it: its hardware id if the registry
    has one, and the four strings of its record. *)
Record adapter : Type := {
  hardwareId : option string;
  netCfgInstanceId : string;
  driverDesc : string;
  connectionName : string;
  instanceId : string
}.

Definition bytes (s : string) : DWORD := sizeof_wchar_t * (Z.of_nat (String.length s) + 1).

(** A device all of whose queries succeed; the hardware id is a REG_MULTI_SZ
    with one string. *)
Definition device (a : adapter) : Device := {|
  SetupDiGetDeviceRegistryPropertyW_size := fun _ =>
    match hardwareId a with
    | Some id => (false, ERROR_INSUFFICIENT_BUFFER, bytes id + sizeof_wchar_t)
    | None => (false, ERROR_INVALID_DATA, 0)
    end;
  SetupDiGetDeviceRegistryPropertyW_fill := fun _ _ =>
    match hardwareId a with
    | Some id => inr (L id ++ [0; 0])
    | None => inl ERROR_INVALID_DATA
    end;
  SetupDiGetDevicePropertyW_size := fun _ =>
    (false, ERROR_INSUFFICIENT_BUFFER, bytes (driverDesc a));
  SetupDiGetDevicePropertyW_fill := fun _ _ => inr (L (driverDesc a) ++ [0]);
  SetupDiOpenDevRegKey := inr tt;
  RegGetValueW_NetCfgInstanceId := fun _ =>
    (ERROR_SUCCESS, L (netCfgInstanceId a) ++ [0], bytes (netCfgInstanceId a));
  SetupDiGetDeviceInstanceIdW_size := Z.of_nat (String.length (instanceId a)) + 1;
  SetupDiGetDeviceInstanceIdW_fill := fun _ => inr (L (instanceId a) ++ [0]);
  SetupDiRemoveDevice := inr tt
|}.

(** The same device with a registry key that cannot be opened. *)
Definition broken_device (a : adapter) (code : DWORD) : Device := {|
  SetupDiGetDeviceRegistryPropertyW_size :=
    SetupDiGetDeviceRegistryPropertyW_size (device a);
  SetupDiGetDeviceRegistryPropertyW_fill :=
    SetupDiGetDeviceRegistryPropertyW_fill (device a);
  SetupDiGetDevicePropertyW_size := SetupDiGetDevicePropertyW_size (device a);
  SetupDiGetDevicePropertyW_fill := SetupDiGetDevicePropertyW_fill (device a);
  SetupDiOpenDevRegKey := inl code;
  RegGetValueW_NetCfgInstanceId := RegGetValueW_NetCfgInstanceId (device a);
  SetupDiGetDeviceInstanceIdW_size := SetupDiGetDeviceInstanceIdW_size (device a);
  SetupDiGetDeviceInstanceIdW_fill := SetupDiGetDeviceInstanceIdW_fill (device a);
  SetupDiRemoveDevice := SetupDiRemoveDevice (device a)
|}.

Fixpoint index_of (s : wstring) (known : list adapter) (i : Z) : option Z :=
  match known with
  | [] => None
  | a :: rest =>
      if compare (L (netCfgInstanceId a)) s =? 0 then Some i
      else index_of s rest (i + 1)
  end.

(** A host with the given present devices; [known] are the adapters whose
    connection names the network configuration knows.  [pinned] is the
    result of [GetModuleFileNameW]. *)
Definition host (members : list Device) (known : list adapter) (pinned : DWORD)
  : Host := {|
  SetupDiGetClassDevs := inr (members, ERROR_NO_MORE_ITEMS);
  Guid_FromString := fun s =>
    match index_of s known 0 with
    | Some i => inr i
    | None => inl (RuntimeError "Invalid GUID string")
    end;
  Nci_ctor := None;
  Nci_getConnectionName := fun g =>
    match nth_error known (Z.to_nat g) with
    | Some a => inr (L (connectionName a))
    | None => inl (RuntimeError "Connection name not found")
    end;
  GetModuleFileNameW_self := pinned;
  WindowsError_what := fun _ operation => operation
|}.

Definition tap (id guid' alias' : string) : adapter := {|
  hardwareId := Some id;
  netCfgInstanceId := guid';
  driverDesc := "TAP-Windows Adapter V9";
  connectionName := alias';
  instanceId := String.append "ROOT\NET\" guid'
|}.

Definition record (a : adapter) : NetworkAdapter := {|
  guid := L (netCfgInstanceId a);
  name := L (driverDesc a);
  alias := L (connectionName a);
  deviceInstanceId := L (instanceId a)
|}.

End Fake.

(* ------------------------------------------------------------------------- *)
(** ** Vocabulary of the properties *)

Module Vocabulary.
Import Context.

(** Two names are the same up to the case of A-Z. *)
Definition equal_ignoring_case (s t : wstring) : Prop :=
  map towlower (c_str s) = map towlower (c_str t).

(** The aliases [FindMullvadAdapter] looks for, in the order it tries
    them. *)
Definition product_aliases : list wstring :=
  [ L "Mullvad"; L "Mullvad-0"; L "Mullvad-1"; L "Mullvad-2"; L "Mullvad-3";
    L "Mullvad-4"; L "Mullvad-5"; L "Mullvad-6"; L "Mullvad-7"; L "Mullvad-8";
    L "Mullvad-9" ].

(** No adapter of the set goes by the name [alias']. *)
Definition unused (tapAdapters : set) (alias' : wstring) : Prop :=
  forall a, In a tapAdapters -> ~ equal_ignoring_case (alias a) alias'.

(** The device's registry has a hardware id and it is [hardwareId'], as C
    strings compare. *)
Definition carries (hardwareId' : wstring) (d : Device) : Prop :=
  exists value,
    GetDeviceRegistryStringProperty d SPDRP_HARDWAREID = Return (Some value)
    /\ c_str value = c_str hardwareId'.

(** The device's registry has no hardware id, or another one. *)
Definition filtered_out (hardwareId' : wstring) (d : Device) : Prop :=
  GetDeviceRegistryStringProperty d SPDRP_HARDWAREID = Return None
  \/ exists value,
       GetDeviceRegistryStringProperty d SPDRP_HARDWAREID = Return (Some value)
       /\ c_str value <> c_str hardwareId'.

(** The order of the set, on the identifying strings. *)
Definition guid_lt (a b : NetworkAdapter) : Prop := compare (guid a) (guid b) < 0.

(** The four strings of the record [r] are what the four queries on the
    device [d] return. *)
Definition obtained (h : Host) (d : Device) (r : NetworkAdapter) : Prop :=
  GetNetCfgInstanceId d = Return (guid r)
  /\ GetDeviceStringProperty d DEVPKEY_Device_DriverDesc = Return (name r)
  /\ (exists guidObj, Guid_FromString h (guid r) = inr guidObj
                      /\ Nci_getConnectionName h guidObj = inr (alias r))
  /\ GetDeviceInstanceId d = Return (deviceInstanceId r).

(** The line the enumeration writes when it passes over a device. *)
Definition skipped (h : Host) (e : exception) : event := PluginLog (skip_message h e).

(** The design document's DeviceRemovalError, AdapterNotFoundError and
    AmbiguousAdapterError as the source throws them. *)
Definition removal_failed (lastError : DWORD) : exception :=
  WindowsError lastError "Error removing Mullvad TAP device".
Definition not_found : exception := RuntimeError "Mullvad TAP adapter not found".
Definition ambiguous : exception :=
  RuntimeError "Identified more TAP adapters than expected".

End Vocabulary.

(* ------------------------------------------------------------------------- *)
(** ** Example hosts *)

Module Examples.
Import Context.

(** A network card that is no TAP adapter: its registry has no hardware
    id. *)
Definition ethernet : Fake.adapter :=
  {| Fake.hardwareId := None; Fake.netCfgInstanceId := "{E}";
     Fake.driverDesc := "Ethernet"; Fake.connectionName := "LAN";
     Fake.instanceId := "PCI\1" |}.

(** Adapters of the current driver and of the legacy driver. *)
Definition current (guid' alias' : string) : Fake.adapter :=
  Fake.tap "tapmullvad0901" guid' alias'.
Definition legacy (guid' alias' : string) : Fake.adapter :=
  Fake.tap "tap0901" guid' alias'.

Definition mullvad : Fake.adapter := current "{A}" "Mullvad".
Definition mullvad_1 : Fake.adapter := current "{B}" "Mullvad-1".
Definition old_mullvad : Fake.adapter := legacy "{C}" "Mullvad".
Definition old_other : Fake.adapter := legacy "{D}" "OpenVPN".

Definition known : list Fake.adapter :=
  [ethernet; mullvad; mullvad_1; old_mullvad; old_other].

(** After an upgrade: a network card, the new adapter, the old adapter and
    an unrelated adapter of the legacy driver. *)
Definition upgraded : Host :=
  Fake.host (map Fake.device [ethernet; mullvad; old_mullvad; old_other]) known 42.

(** The same, with a new adapter whose registry key cannot be opened in
    front. *)
Definition with_broken : Host :=
  Fake.host (Fake.broken_device mullvad_1 5
               :: map Fake.device [ethernet; mullvad; old_mullvad; old_other])
            known 42.

(** The module file name cannot be read: [PinDll] fails. *)
Definition unpinned : Host :=
  Fake.host (map Fake.device [ethernet; mullvad]) known 0.

(** The sets of the design document's examples. *)
Definition three_aliases : set :=
  [ Fake.record (legacy "{1}" "Mullvad-2");
    Fake.record (legacy "{2}" "Other");
    Fake.record (legacy "{3}" "Mullvad-1") ].

Definition upper_case : set := [ Fake.record (legacy "{1}" "MULLVAD") ].

Definition base_and_suffix : set :=
  [ Fake.record (legacy "{1}" "Mullvad-0");
    Fake.record (legacy "{2}" "mullvad") ].

(** The enumeration of the present devices breaks off with
    ERROR_ACCESS_DENIED after the first two. *)
Definition interrupted : Host := {|
  SetupDiGetClassDevs := inr (map Fake.device [ethernet; mullvad], 5);
  Guid_FromString := Guid_FromString upgraded;
  Nci_ctor := None;
  Nci_getConnectionName := Nci_getConnectionName upgraded;
  GetModuleFileNameW_self := 42;
  WindowsError_what := fun _ operation => operation
|}.

(** The product's legacy adapter and, after it, another legacy adapter
    whose registry key cannot be opened. *)
Definition legacy_broken : Host :=
  Fake.host [Fake.device old_mullvad; Fake.broken_device old_other 5] known 42.

(** Two adapters that both go by the base name. *)
Definition two_mullvads : set :=
  [ Fake.record (legacy "{1}" "Other");
    Fake.record (legacy "{2}" "MULLVAD");
    Fake.record (legacy "{3}" "Mullvad") ].

(** A second device that reports the identifying string of the product's
    legacy adapter. *)
Definition twin : Fake.adapter :=
  {| Fake.hardwareId := Some "tap0901"; Fake.netCfgInstanceId := "{C}";
     Fake.driverDesc := "TAP-Windows Adapter V9 #2";
     Fake.connectionName := "Mullvad"; Fake.instanceId := "ROOT\NET\0002" |}.

Definition duplicated : Host :=
  Fake.host (map Fake.device [ethernet; old_mullvad; twin]) known 42.

End Examples.

(* ------------------------------------------------------------------------- *)
(** ** Reading traces *)

Module Traces.

Definition is_log (ev : event) : Prop := exists message, ev = PluginLog message.

(** The member indices whose removal a trace requests, in order. *)
Fixpoint removals (t : list event) : list Z :=
  match t with
  | [] => []
  | RemoveDevice j :: rest => j :: removals rest
  | _ :: rest => removals rest
  end.

End Traces.

(* ------------------------------------------------------------------------- *)
(** ** SettingsListener.kt *)

Module SettingsListener.

Section Listener.

Variable Settings : Type.

(** The field [settings] ([None] is [null]).  The two functions below are
    the bodies of the two [synchronized(this)] blocks, which exclude each
    other: each runs as a whole. *)
Definition handleNewSettings (newSettings : Settings) (settings : option Settings)
  : option Settings :=
  Some newSettings.

(** [fetchInitialSettings] from its [synchronized] block on;
    [initialSettings] is what [daemon.getSettings()] returned before the
    block was entered. *)
Definition fetchInitialSettings (initialSettings : Settings)
    (settings : option Settings) : option Settings :=
  match settings with
  | None => handleNewSettings initialSettings settings
  | Some _ => settings
  end.

(** What reaches the listener once [setUp] has registered it: the daemon's
    calls of [onSettingsChange], and the one commit of the fetched
    settings. *)
Inductive call : Type :=
| onSettingsChange (newSettings : Settings)
| fetched (initialSettings : Settings).

Definition perform (settings : option Settings) (c : call) : option Settings :=
  match c with
  | onSettingsChange newSettings => handleNewSettings newSettings settings
  | fetched initialSettings => fetchInitialSettings initialSettings settings
  end.

Definition run (calls : list call) : option Settings := fold_left perform calls None.

End Listener.

End SettingsListener.

(* ------------------------------------------------------------------------- *)
(** * Properties *)

(** ** Comparisons of wide strings *)

Lemma lex_compare_refl (a : wstring) : lex_compare a a = 0.
Proof.
  induction a as [|x a IH]; simpl; [reflexivity|].
  rewrite Z.ltb_irrefl. exact IH.
Qed.

Lemma lex_compare_eq (a b : wstring) : lex_compare a b = 0 <-> a = b.
Proof.
  split; [|intros ->; apply lex_compare_refl].
  revert b; induction a as [|x a IH]; intros [|y b]; simpl; try discriminate; auto.
  destruct (Z.ltb_spec x y); [discriminate|].
  destruct (Z.ltb_spec y x); [discriminate|].
  intros H1. f_equal; [lia | auto].
Qed.

Lemma lex_compare_lt_trans (a b c : wstring) :
  lex_compare a b < 0 -> lex_compare b c < 0 -> lex_compare a c < 0.
Proof.
  revert b c; induction a as [|x a IH]; intros [|y b] [|z c]; simpl; try lia.
  destruct (Z.ltb_spec x y), (Z.ltb_spec y z), (Z.ltb_spec x z);
    try lia;
    destruct (Z.ltb_spec y x), (Z.ltb_spec z y), (Z.ltb_spec z x);
    try lia.
  apply IH.
Qed.

Lemma lex_compare_antisym (a b : wstring) :
  lex_compare a b < 0 -> ~ lex_compare b a < 0.
Proof.
  revert b; induction a as [|x a IH]; intros [|y b]; simpl; try lia.
  destruct (Z.ltb_spec x y), (Z.ltb_spec y x); try lia.
  apply IH.
Qed.

Lemma c_str_no_nul (s : wstring) : ~ In 0 (c_str s).
Proof.
  induction s as [|c s IH]; simpl; [tauto|].
  destruct (Z.eqb_spec c 0); simpl; [tauto|].
  intros [H|H]; [congruence | auto].
Qed.

Lemma c_str_id (s : wstring) : ~ In 0 s -> c_str s = s.
Proof.
  induction s as [|c s IH]; simpl; [reflexivity|].
  intros H. destruct (Z.eqb_spec c 0); [tauto|].
  f_equal. apply IH. tauto.
Qed.

Lemma c_str_idem (s : wstring) : c_str (c_str s) = c_str s.
Proof. apply c_str_id, c_str_no_nul. Qed.

Lemma wcscmp_eq (p q : wstring) : wcscmp p q = 0 <-> p = q.
Proof. apply lex_compare_eq. Qed.

Lemma _wcsicmp_eq (p q : wstring) :
  _wcsicmp p q = 0 <-> map towlower p = map towlower q.
Proof. apply lex_compare_eq. Qed.


Lemma c_str_map_towlower_nul (s : wstring) : ~ In 0 (map towlower (c_str s)).
Proof.
  intros H. apply in_map_iff in H. destruct H as (c & Hc & Hin).
  unfold towlower in Hc.
  destruct ((65 <=? c) && (c <=? 90)) eqn:E.
  - apply andb_prop in E. destruct E as [E1 E2].
    apply Z.leb_le in E1. lia.
  - subst c. exact (c_str_no_nul s Hin).
Qed.

(** ** Traced computations *)

Lemma tbind_lift_Return {A B : Type} (a : A) (f : A -> traced B) :
  tbind (lift (Return a)) f = f a.
Proof. unfold tbind, lift. destruct (f a); reflexivity. Qed.

Lemma tbind_ret {A B : Type} (a : A) (f : A -> traced B) :
  tbind (ret a) f = f a.
Proof. apply tbind_lift_Return. Qed.

Lemma tbind_emit {B : Type} (ev : event) (f : unit -> traced B) :
  tbind (emit ev) f = (fst (f tt), ev :: snd (f tt)).
Proof. unfold tbind, emit. destruct (f tt); reflexivity. Qed.

Lemma tbind_Return {A B : Type} (a : A) (t : list event) (f : A -> traced B) :
  tbind (Return a, t) f = (fst (f a), t ++ snd (f a)).
Proof. unfold tbind. destruct (f a); reflexivity. Qed.

(** ** The property reader *)

Import Context.

(** C9.  [GetDeviceRegistryStringProperty] (the design document's
    [readOptionalRegistryProperty]): when the sizing call fails with
    ERROR_INVALID_DATA the result is [nullopt]; when it fails with an error
    that is neither ERROR_INSUFFICIENT_BUFFER nor ERROR_INVALID_DATA the
    function throws the Windows error of that call; and when the fill call is
    reached (the sizing call succeeded or reported ERROR_INSUFFICIENT_BUFFER)
    and fails, the function throws the Windows error of the fill call. *)
Theorem GetDeviceRegistryStringProperty_failures
    (devInfoData : Device) (property : DWORD)
    (sizeStatus : bool) (lastError requiredSize : DWORD) :
  SetupDiGetDeviceRegistryPropertyW_size devInfoData property
    = (sizeStatus, lastError, requiredSize) ->
  (sizeStatus = false /\ lastError = ERROR_INVALID_DATA ->
     GetDeviceRegistryStringProperty devInfoData property = Return None)
  /\ (sizeStatus = false /\ lastError <> ERROR_INSUFFICIENT_BUFFER
        /\ lastError <> ERROR_INVALID_DATA ->
      GetDeviceRegistryStringProperty devInfoData property
        = Throw (WindowsError lastError "SetupDiGetDeviceRegistryPropertyW"))
  /\ (forall lastError' : DWORD,
        sizeStatus = true \/ lastError = ERROR_INSUFFICIENT_BUFFER ->
        SetupDiGetDeviceRegistryPropertyW_fill devInfoData property
          (dword ((1 + requiredSize / sizeof_wchar_t) * sizeof_wchar_t))
          = inl lastError' ->
        GetDeviceRegistryStringProperty devInfoData property
          = Throw (WindowsError lastError' "Failed to read device property")).
Proof.
  intros Hsize. unfold GetDeviceRegistryStringProperty. rewrite Hsize.
  repeat split.
  - intros [-> ->]. reflexivity.
  - intros (-> & Hb & Hd). simpl.
    destruct (Z.eqb_spec lastError ERROR_INSUFFICIENT_BUFFER); [contradiction|].
    destruct (Z.eqb_spec lastError ERROR_INVALID_DATA); [contradiction|].
    reflexivity.
  - intros err Hreach Hfill.
    assert (Hc : negb sizeStatus && negb (lastError =? ERROR_INSUFFICIENT_BUFFER) = false).
    { destruct Hreach as [-> | ->]; [reflexivity|].
      rewrite Z.eqb_refl. apply andb_false_r. }
    rewrite Hc, Hfill. reflexivity.
Qed.

Lemma GetDeviceRegistryStringProperty_failures_witness :
  GetDeviceRegistryStringProperty (Fake.device Examples.ethernet) SPDRP_HARDWAREID = Return None.
Proof.
  exact (proj1 (GetDeviceRegistryStringProperty_failures
                  (Fake.device Examples.ethernet) SPDRP_HARDWAREID false ERROR_INVALID_DATA 0 eq_refl)
               (conj eq_refl eq_refl)).
Defined.

(** ** The adapter matcher *)

Import Vocabulary.

Lemma findByAlias_Some (adapters : set) (alias' : wstring) (b : NetworkAdapter) :
  findByAlias adapters alias' = Some b ->
  In b adapters /\ equal_ignoring_case (alias b) alias'.
Proof.
  unfold findByAlias. intros H. apply find_some in H. destruct H as [Hin Hcmp].
  split; [exact Hin|].
  apply Z.eqb_eq in Hcmp. apply _wcsicmp_eq in Hcmp. exact Hcmp.
Qed.

Lemma findByAlias_None (adapters : set) (alias' : wstring) :
  findByAlias adapters alias' = None <-> unused adapters alias'.
Proof.
  unfold findByAlias, unused, equal_ignoring_case. split.
  - intros H a Hin Heq.
    pose proof (find_none _ _ H a Hin) as Hn. simpl in Hn.
    apply _wcsicmp_eq in Heq. rewrite Heq in Hn. discriminate.
  - intros H.
    destruct (find _ adapters) as [b|] eqn:E; [|reflexivity].
    apply find_some in E. destruct E as [Hin Hcmp].
    apply Z.eqb_eq, _wcsicmp_eq in Hcmp. elim (H b Hin Hcmp).
Qed.

Lemma findByAlias_used (adapters : set) (alias' : wstring) (a : NetworkAdapter) :
  In a adapters -> equal_ignoring_case (alias a) alias' ->
  exists b, findByAlias adapters alias' = Some b.
Proof.
  intros Hin Heq.
  destruct (findByAlias adapters alias') as [b|] eqn:E; [eauto|].
  apply findByAlias_None in E. elim (E a Hin Heq).
Qed.

Lemma probe_first (tapAdapters : set) (before after : list nat) (i : nat) :
  (forall j, In j before -> unused tapAdapters (suffixed_alias j)) ->
  probe tapAdapters (before ++ i :: after)
    = match findByAlias tapAdapters (suffixed_alias i) with
      | Some b => Some b
      | None => probe tapAdapters after
      end.
Proof.
  induction before as [|j before IH]; intros Hnone; simpl; [reflexivity|].
  assert (Hj : findByAlias tapAdapters (suffixed_alias j) = None).
  { apply findByAlias_None, Hnone. now left. }
  rewrite Hj. apply IH. intros k Hk. apply Hnone. now right.
Qed.

Lemma probe_none (tapAdapters : set) (indices : list nat) :
  (forall j, In j indices -> unused tapAdapters (suffixed_alias j)) ->
  probe tapAdapters indices = None.
Proof.
  induction indices as [|j indices IH]; intros Hnone; simpl; [reflexivity|].
  assert (Hj : findByAlias tapAdapters (suffixed_alias j) = None).
  { apply findByAlias_None, Hnone. now left. }
  rewrite Hj. apply IH. intros k Hk. apply Hnone. now right.
Qed.

Lemma seq_split_at (i n : nat) :
  (i < n)%nat -> seq 0 n = seq 0 i ++ i :: seq (S i) (n - S i).
Proof.
  intros Hi. replace n with (i + (n - i))%nat at 1 by lia.
  rewrite seq_app. simpl. f_equal.
  replace (n - i)%nat with (S (n - S i)) by lia. reflexivity.
Qed.

Lemma suffixed_aliases :
  L "Mullvad" :: map suffixed_alias (seq 0 10) = product_aliases.
Proof. reflexivity. Qed.

(** C3.  [FindMullvadAdapter] (the design document's [findProductAdapter])
    with base name "Mullvad": the names it looks for are "Mullvad" and then
    "Mullvad-0" ... "Mullvad-9"; on the empty set there is no match; if some
    adapter's alias is "Mullvad" up to case, the result is such an adapter;
    if none is and [i] is the least suffix below 10 some adapter's alias
    carries, the result is an adapter aliased "Mullvad-i"; and if none of the
    eleven names is in use, there is no match. *)
Theorem FindMullvadAdapter_policy (tapAdapters : set) :
  L "Mullvad" :: map suffixed_alias (seq 0 10) = product_aliases
  /\ FindMullvadAdapter [] = None
  /\ (forall a, In a tapAdapters -> equal_ignoring_case (alias a) (L "Mullvad") ->
      exists b, FindMullvadAdapter tapAdapters = Some b
                /\ In b tapAdapters
                /\ equal_ignoring_case (alias b) (L "Mullvad"))
  /\ (forall (i : nat) a,
        unused tapAdapters (L "Mullvad") ->
        (i < 10)%nat ->
        (forall j, (j < i)%nat -> unused tapAdapters (suffixed_alias j)) ->
        In a tapAdapters -> equal_ignoring_case (alias a) (suffixed_alias i) ->
        exists b, FindMullvadAdapter tapAdapters = Some b
                  /\ In b tapAdapters
                  /\ equal_ignoring_case (alias b) (suffixed_alias i))
  /\ ((forall alias', In alias' product_aliases -> unused tapAdapters alias') ->
      FindMullvadAdapter tapAdapters = None).
Proof.
  split; [reflexivity|]. split; [reflexivity|]. split; [|split].
  - intros a Hin Heq.
    destruct (findByAlias_used tapAdapters _ a Hin Heq) as [b Hb].
    exists b. split; [|exact (findByAlias_Some _ _ _ Hb)].
    unfold FindMullvadAdapter. destruct tapAdapters; [destruct Hin|].
    simpl empty. cbv iota. fold baseAlias in Hb |- *. rewrite Hb. reflexivity.
  - intros i a Hbase Hi Hlow Hin Heq.
    destruct (findByAlias_used tapAdapters _ a Hin Heq) as [b Hb].
    exists b. split; [|exact (findByAlias_Some _ _ _ Hb)].
    unfold FindMullvadAdapter. destruct tapAdapters as [|x s]; [destruct Hin|].
    simpl empty. cbv iota.
    apply findByAlias_None in Hbase. fold baseAlias in Hbase. rewrite Hbase.
    rewrite (seq_split_at i 10 Hi), probe_first.
    + rewrite Hb. reflexivity.
    + intros j Hj. apply in_seq in Hj. apply Hlow. lia.
  - intros Hnone. unfold FindMullvadAdapter.
    destruct (empty tapAdapters); [reflexivity|].
    assert (Hbase : findByAlias tapAdapters baseAlias = None).
    { apply findByAlias_None, Hnone. now left. }
    rewrite Hbase. apply probe_none.
    intros j Hj. apply Hnone. rewrite <- suffixed_aliases. right.
    apply in_map. exact Hj.
Qed.

Lemma FindMullvadAdapter_policy_witness :
  exists b,
    FindMullvadAdapter Examples.three_aliases = Some b
    /\ In b Examples.three_aliases
    /\ equal_ignoring_case (alias b) (suffixed_alias 1).
Proof.
  apply (proj1 (proj2 (proj2 (proj2 (FindMullvadAdapter_policy Examples.three_aliases))))
           1%nat (Fake.record (Examples.legacy "{3}" "Mullvad-1"))).
  - intros a [<-|[<-|[<-|[]]]]; vm_compute; discriminate.
  - lia.
  - intros j Hj. assert (j = 0%nat) as -> by lia.
    intros a [<-|[<-|[<-|[]]]]; vm_compute; discriminate.
  - simpl. auto.
  - reflexivity.
Defined.

(** The examples of the design document. *)
Example FindMullvadAdapter_lowest_suffix :
  FindMullvadAdapter Examples.three_aliases
  = Some (Fake.record (Examples.legacy "{3}" "Mullvad-1")).
Proof. reflexivity. Qed.

Example FindMullvadAdapter_upper_case :
  FindMullvadAdapter Examples.upper_case
  = Some (Fake.record (Examples.legacy "{1}" "MULLVAD")).
Proof. reflexivity. Qed.

Example FindMullvadAdapter_base_first :
  FindMullvadAdapter Examples.base_and_suffix
  = Some (Fake.record (Examples.legacy "{2}" "mullvad")).
Proof. reflexivity. Qed.

(** ** The set of adapters *)

Lemma lex_compare_total (a b : wstring) :
  ~ lex_compare a b < 0 -> ~ lex_compare b a < 0 -> a = b.
Proof.
  revert b; induction a as [|x a IH]; intros [|y b]; simpl; try lia; auto.
  destruct (Z.ltb_spec x y), (Z.ltb_spec y x); try lia.
  intros H1 H2. f_equal; [lia | auto].
Qed.

Lemma NetworkAdapter_lt_spec (a b : NetworkAdapter) :
  NetworkAdapter_lt a b = true <-> guid_lt a b.
Proof. unfold NetworkAdapter_lt, guid_lt. apply Z.ltb_lt. Qed.

Lemma guid_lt_trans (a b c : NetworkAdapter) :
  guid_lt a b -> guid_lt b c -> guid_lt a c.
Proof. unfold guid_lt, compare. apply lex_compare_lt_trans. Qed.

Lemma guid_lt_irrefl (a b : NetworkAdapter) :
  guid_lt a b -> guid a <> guid b.
Proof.
  unfold guid_lt, compare. intros H E. rewrite E, lex_compare_refl in H. lia.
Qed.

Lemma emplace_In (x z : NetworkAdapter) (s : set) :
  In z (emplace x s) -> z = x \/ In z s.
Proof.
  induction s as [|y s IH]; simpl.
  - intros [<-|[]]. now left.
  - destruct (NetworkAdapter_lt x y).
    + intros [<-|H]; [now left | now right].
    + destruct (NetworkAdapter_lt y x).
      * intros [<-|H]; [right; now left|].
        destruct (IH H) as [->|H']; [now left | right; now right].
      * intros H. now right.
Qed.

Lemma emplace_keeps (x z : NetworkAdapter) (s : set) :
  In z s -> In z (emplace x s).
Proof.
  induction s as [|y s IH]; simpl; [tauto|].
  destruct (NetworkAdapter_lt x y); [intros H; now right|].
  destruct (NetworkAdapter_lt y x); [|intros H; exact H].
  intros [<-|H]; [now left | right; auto].
Qed.

Lemma emplace_present (x : NetworkAdapter) (s : set) :
  exists x', In x' (emplace x s) /\ guid x' = guid x.
Proof.
  induction s as [|y s IH]; simpl.
  - exists x. split; [now left | reflexivity].
  - destruct (NetworkAdapter_lt x y) eqn:Exy.
    + exists x. split; [now left | reflexivity].
    + destruct (NetworkAdapter_lt y x) eqn:Eyx.
      * destruct IH as (x' & Hin & Hg). exists x'. split; [now right | exact Hg].
      * exists y. split; [now left|].
        apply lex_compare_total.
        -- intros H. apply NetworkAdapter_lt_spec in H. congruence.
        -- intros H. apply NetworkAdapter_lt_spec in H. congruence.
Qed.

Lemma emplace_sorted (x : NetworkAdapter) (s : set) :
  StronglySorted guid_lt s -> StronglySorted guid_lt (emplace x s).
Proof.
  induction s as [|y s IH]; intros Hs; simpl.
  - constructor; constructor.
  - inversion Hs as [|y' s' Hs' Hy]; subst.
    destruct (NetworkAdapter_lt x y) eqn:Exy.
    + apply NetworkAdapter_lt_spec in Exy.
      constructor; [exact Hs|]. constructor; [exact Exy|].
      rewrite Forall_forall in Hy |- *. intros z Hz.
      eapply guid_lt_trans; eauto.
    + destruct (NetworkAdapter_lt y x) eqn:Eyx; [|exact Hs].
      apply NetworkAdapter_lt_spec in Eyx.
      constructor; [auto|].
      rewrite Forall_forall in Hy |- *. intros z Hz.
      destruct (emplace_In _ _ _ Hz) as [->|Hz']; auto.
Qed.

Lemma sorted_NoDup (s : set) :
  StronglySorted guid_lt s -> NoDup (map guid s).
Proof.
  induction 1 as [|y s Hs IH Hy]; simpl; constructor; [|exact IH].
  intros Hin. apply in_map_iff in Hin. destruct Hin as (z & Hz & Hin).
  rewrite Forall_forall in Hy. apply (guid_lt_irrefl y z); auto.
Qed.

(** ** The enumeration loop *)

Section Enumeration.

Variable h : Host.
Variable tapHardwareId : wstring.

Lemma GetTapAdapters_loop_cons (d : Device) (rest : list Device)
    (lastError : DWORD) (i : Z) (s : set) :
  GetTapAdapters_loop h tapHardwareId (d :: rest) lastError i s
  = let next s' :=
      if i =? INT_MAX then undefined
      else GetTapAdapters_loop h tapHardwareId rest lastError (i + 1) s' in
    match GetDeviceRegistryStringProperty d SPDRP_HARDWAREID with
    | Return None => next s
    | Return (Some value) =>
        if wcscmp (c_str value) (c_str tapHardwareId) =? 0 then
          match construct_NetworkAdapter h d with
          | Return a => next (emplace a s)
          | Throw e => (fst (next s), PluginLog (skip_message h e) :: snd (next s))
          | Undefined => undefined
          end
        else next s
    | Throw e => throw e
    | Undefined => undefined
    end.
Proof.
  cbn [GetTapAdapters_loop]. cbv zeta.
  destruct (GetDeviceRegistryStringProperty d SPDRP_HARDWAREID) as [[value|]|e|];
    try reflexivity.
  - rewrite tbind_lift_Return.
    destruct (wcscmp (c_str value) (c_str tapHardwareId) =? 0); [|reflexivity].
    cbn [negb].
    destruct (construct_NetworkAdapter h d) as [a|e|].
    + rewrite tbind_lift_Return. unfold try_catch, ret. rewrite tbind_Return.
      simpl. now destruct (if i =? INT_MAX then _ else _).
    + unfold lift, tbind at 2, try_catch. rewrite tbind_emit. simpl.
      unfold tbind. now destruct (if i =? INT_MAX then _ else _).
    + reflexivity.
  - now rewrite tbind_lift_Return.
Qed.

Lemma carries_dec (d : Device) (value : wstring) :
  GetDeviceRegistryStringProperty d SPDRP_HARDWAREID = Return (Some value) ->
  (wcscmp (c_str value) (c_str tapHardwareId) =? 0) = true ->
  carries tapHardwareId d.
Proof.
  intros Hq Hc. exists value. split; [exact Hq|].
  apply Z.eqb_eq, wcscmp_eq in Hc.
  unfold GetDeviceRegistryStringProperty in Hq.
  destruct (SetupDiGetDeviceRegistryPropertyW_size d SPDRP_HARDWAREID) as [[st le] rs].
  destruct (negb st && negb (le =? ERROR_INSUFFICIENT_BUFFER)).
  - destruct (negb (le =? ERROR_INVALID_DATA)); discriminate.
  - destruct (SetupDiGetDeviceRegistryPropertyW_fill _ _ _); [discriminate|].
    injection Hq as <-. now rewrite c_str_idem in Hc |- *.
Qed.

(** Whatever holds of the set at the start and is kept by every insertion
    of a record built from a device that carries the hardware id holds of
    the set the loop returns. *)
Lemma GetTapAdapters_loop_invariant (P : set -> Prop)
    (members : list Device) (lastError : DWORD) :
  (forall d a s, In d members -> carries tapHardwareId d ->
                 construct_NetworkAdapter h d = Return a ->
                 P s -> P (emplace a s)) ->
  forall i s r t,
    P s ->
    GetTapAdapters_loop h tapHardwareId members lastError i s = (Return r, t) ->
    P r.
Proof.
  induction members as [|d rest IH]; intros Hstep i s r t Hs Hrun.
  - simpl in Hrun. destruct (lastError =? ERROR_NO_MORE_ITEMS); [|discriminate].
    injection Hrun as <- _. exact Hs.
  - assert (Hrest : forall d a s, In d rest -> carries tapHardwareId d ->
                      construct_NetworkAdapter h d = Return a ->
                      P s -> P (emplace a s)).
    { intros d' a s' Hin. apply Hstep. now right. }
    rewrite GetTapAdapters_loop_cons in Hrun. cbv zeta in Hrun.
    destruct (GetDeviceRegistryStringProperty d SPDRP_HARDWAREID)
      as [[value|]|e|] eqn:Hq; try discriminate.
    + destruct (wcscmp (c_str value) (c_str tapHardwareId) =? 0) eqn:Hc.
      * pose proof (carries_dec d value Hq Hc) as Hcar.
        destruct (construct_NetworkAdapter h d) as [a|e|] eqn:Hb; try discriminate.
        -- destruct (i =? INT_MAX); [discriminate|].
           eapply (IH Hrest); [|exact Hrun]. eapply Hstep; eauto. now left.
        -- destruct (i =? INT_MAX); [discriminate|].
           destruct (GetTapAdapters_loop h tapHardwareId rest lastError (i + 1) s)
             as [r' t'] eqn:Hn.
           simpl in Hrun. injection Hrun as -> _.
           eapply (IH Hrest); [|exact Hn]. exact Hs.
      * destruct (i =? INT_MAX); [discriminate|]. eapply (IH Hrest); eauto.
    + destruct (i =? INT_MAX); [discriminate|]. eapply (IH Hrest); eauto.
Qed.

Lemma GetTapAdapters_Return (r : set) (t : list event) :
  GetTapAdapters h tapHardwareId = (Return r, t) ->
  exists members lastError t',
    SetupDiGetClassDevs h = inr (members, lastError)
    /\ Nci_ctor h = None
    /\ GetTapAdapters_loop h tapHardwareId members lastError 0 [] = (Return r, t')
    /\ t = GetClassDevs :: t' ++ [DestroyDeviceInfoList].
Proof.
  unfold GetTapAdapters. rewrite tbind_emit.
  destruct (SetupDiGetClassDevs h) as [err|[members lastError]]; [discriminate|].
  destruct (Nci_ctor h) as [e|]; [discriminate|].
  destruct (GetTapAdapters_loop h tapHardwareId members lastError 0 [])
    as [[r'|e|] t'] eqn:Hloop; simpl; try discriminate.
  intros H. injection H as -> <-.
  exists members, lastError, t'. auto.
Qed.

Lemma carries_compare (d : Device) (value : wstring) :
  GetDeviceRegistryStringProperty d SPDRP_HARDWAREID = Return (Some value) ->
  carries tapHardwareId d ->
  (wcscmp (c_str value) (c_str tapHardwareId) =? 0) = true.
Proof.
  intros Hq (value' & Hq' & Heq). rewrite Hq in Hq'. injection Hq' as <-.
  apply Z.eqb_eq, wcscmp_eq. exact Heq.
Qed.

Lemma filtered_out_not_carries (d : Device) :
  filtered_out tapHardwareId d -> ~ carries tapHardwareId d.
Proof.
  intros [Hn | (value & Hq & Hne)] (value' & Hq' & Heq).
  - rewrite Hn in Hq'. discriminate.
  - rewrite Hq in Hq'. injection Hq' as <-. contradiction.
Qed.

(** A device without the hardware id is passed over: the loop goes on to
    the next member with the set as it was and writes nothing. *)
Lemma GetTapAdapters_loop_filtered_out (d : Device) (rest : list Device)
    (lastError : DWORD) (i : Z) (s : set) :
  filtered_out tapHardwareId d ->
  GetTapAdapters_loop h tapHardwareId (d :: rest) lastError i s
  = if i =? INT_MAX then undefined
    else GetTapAdapters_loop h tapHardwareId rest lastError (i + 1) s.
Proof.
  intros Hf. rewrite GetTapAdapters_loop_cons. cbv zeta.
  destruct Hf as [-> | (value & -> & Hne)]; [reflexivity|].
  destruct (Z.eqb_spec (wcscmp (c_str value) (c_str tapHardwareId)) 0) as [E|E];
    [|reflexivity].
  apply wcscmp_eq in E. contradiction.
Qed.

(** A device with the hardware id whose record cannot be built is logged
    and passed over. *)
Lemma GetTapAdapters_loop_skipped (d : Device) (rest : list Device)
    (lastError : DWORD) (i : Z) (s : set) (e : exception) :
  carries tapHardwareId d ->
  construct_NetworkAdapter h d = Throw e ->
  GetTapAdapters_loop h tapHardwareId (d :: rest) lastError i s
  = let next :=
      if i =? INT_MAX then undefined
      else GetTapAdapters_loop h tapHardwareId rest lastError (i + 1) s in
    (fst next, skipped h e :: snd next).
Proof.
  intros Hc Hb. rewrite GetTapAdapters_loop_cons. cbv zeta.
  destruct Hc as (value & Hq & Heq). rewrite Hq.
  apply wcscmp_eq in Heq. rewrite Heq, Hb. reflexivity.
Qed.

Lemma construct_NetworkAdapter_Return (d : Device) (r : NetworkAdapter) :
  construct_NetworkAdapter h d = Return r <-> obtained h d r.
Proof.
  unfold construct_NetworkAdapter, obtained, bind, of_sum. split.
  - destruct (GetNetCfgInstanceId d) as [g| |]; try discriminate.
    destruct (Guid_FromString h g) as [e|guidObj] eqn:Hg; try discriminate.
    destruct (GetDeviceStringProperty d DEVPKEY_Device_DriverDesc) as [n| |];
      try discriminate.
    destruct (Nci_getConnectionName h guidObj) as [e|al] eqn:Ha; try discriminate.
    destruct (GetDeviceInstanceId d) as [di| |]; try discriminate.
    intros H. injection H as <-. simpl. eauto 6.
  - destruct r as [g n al di]. simpl.
    intros (-> & -> & (guidObj & -> & ->) & ->). reflexivity.
Qed.

(** Every record the loop adds to the set was built from a member that
    carries the hardware id. *)
Lemma GetTapAdapters_loop_provenance (members : list Device) (lastError : DWORD)
    (i : Z) (r : set) (t : list event) :
  GetTapAdapters_loop h tapHardwareId members lastError i [] = (Return r, t) ->
  forall a, In a r ->
    exists d, In d members /\ carries tapHardwareId d
              /\ construct_NetworkAdapter h d = Return a.
Proof.
  intros Hrun.
  eapply (GetTapAdapters_loop_invariant
            (fun s => forall a, In a s ->
               exists d, In d members /\ carries tapHardwareId d
                         /\ construct_NetworkAdapter h d = Return a));
    [| |exact Hrun].
  - intros d a s Hin Hc Hb Hs z Hz.
    destruct (emplace_In _ _ _ Hz) as [->|Hz']; eauto.
  - intros a [].
Qed.

(** When every hardware-id query answers and no record construction runs
    into undefined behaviour, the loop reaches the end of the list whatever
    constructions fail on the way. *)
Lemma GetTapAdapters_loop_completes (members : list Device) :
  forall i s,
    i + Z.of_nat (List.length members) <= INT_MAX ->
    (forall d, In d members ->
       exists o, GetDeviceRegistryStringProperty d SPDRP_HARDWAREID = Return o) ->
    (forall d, In d members -> carries tapHardwareId d ->
       construct_NetworkAdapter h d <> Undefined) ->
    exists r t,
      GetTapAdapters_loop h tapHardwareId members ERROR_NO_MORE_ITEMS i s
        = (Return r, t)
      /\ (forall x, In x s -> In x r)
      /\ (forall d e, In d members -> carries tapHardwareId d ->
            construct_NetworkAdapter h d = Throw e -> In (skipped h e) t)
      /\ (forall d a, In d members -> carries tapHardwareId d ->
            construct_NetworkAdapter h d = Return a ->
            exists a', In a' r /\ guid a' = guid a).
Proof.
  induction members as [|d rest IH]; intros i s Hlen Hq Hdef.
  - exists s, []. simpl. repeat split; auto; intros ? ? [].
  - assert (Hi : (i =? INT_MAX) = false).
    { apply Z.eqb_neq. simpl List.length in Hlen. lia. }
    assert (Hlen' : i + 1 + Z.of_nat (List.length rest) <= INT_MAX).
    { simpl List.length in Hlen. lia. }
    assert (Hq' : forall d, In d rest ->
              exists o, GetDeviceRegistryStringProperty d SPDRP_HARDWAREID = Return o).
    { intros d' Hin. apply Hq. now right. }
    assert (Hdef' : forall d, In d rest -> carries tapHardwareId d ->
              construct_NetworkAdapter h d <> Undefined).
    { intros d' Hin. apply Hdef. now right. }
    rewrite GetTapAdapters_loop_cons. cbv zeta. rewrite Hi.
    destruct (Hq d (or_introl eq_refl)) as [o Ho]. rewrite Ho.
    assert (Hpass :
      ~ carries tapHardwareId d ->
      exists r t,
        GetTapAdapters_loop h tapHardwareId rest ERROR_NO_MORE_ITEMS (i + 1) s
          = (Return r, t)
        /\ (forall x, In x s -> In x r)
        /\ (forall d0 e, In d0 (d :: rest) -> carries tapHardwareId d0 ->
              construct_NetworkAdapter h d0 = Throw e -> In (skipped h e) t)
        /\ (forall d0 a, In d0 (d :: rest) -> carries tapHardwareId d0 ->
              construct_NetworkAdapter h d0 = Return a ->
              exists a', In a' r /\ guid a' = guid a)).
    { intros Hnc.
      destruct (IH (i + 1) s Hlen' Hq' Hdef') as (r & t & Hrun & Hkeep & Hlog & Hrec).
      exists r, t. repeat split; auto.
      - intros d0 e [<-|Hin] Hc; [contradiction | eauto].
      - intros d0 a [<-|Hin] Hc; [contradiction | eauto]. }
    destruct o as [value|].
    + destruct (wcscmp (c_str value) (c_str tapHardwareId) =? 0) eqn:Hc.
      * pose proof (carries_dec d value Ho Hc) as Hcar.
        destruct (construct_NetworkAdapter h d) as [a|e|] eqn:Hb.
        -- destruct (IH (i + 1) (emplace a s) Hlen' Hq' Hdef')
             as (r & t & Hrun & Hkeep & Hlog & Hrec).
           exists r, t. repeat split; auto.
           ++ intros x Hx. apply Hkeep, emplace_keeps, Hx.
           ++ intros d0 e [<-|Hin] Hc0 Hb0; [congruence | eauto].
           ++ intros d0 a0 [<-|Hin] Hc0 Hb0; [|eauto].
              rewrite Hb in Hb0. injection Hb0 as <-.
              destruct (emplace_present a s) as (a' & Hin' & Hg).
              exists a'. split; [apply Hkeep, Hin' | exact Hg].
        -- destruct (IH (i + 1) s Hlen' Hq' Hdef')
             as (r & t & Hrun & Hkeep & Hlog & Hrec).
           exists r, (skipped h e :: t). rewrite Hrun. simpl.
           repeat split; auto.
           ++ intros d0 e0 [<-|Hin] Hc0 Hb0.
              ** rewrite Hb in Hb0. injection Hb0 as <-. now left.
              ** right. eauto.
           ++ intros d0 a0 [<-|Hin] Hc0 Hb0; [congruence | eauto].
        -- elim (Hdef d (or_introl eq_refl) Hcar Hb).
      * apply Hpass. intros Hcar.
        rewrite (carries_compare d value Ho Hcar) in Hc. discriminate.
    + apply Hpass. intros (value & Hv & _). rewrite Ho in Hv. discriminate.
Qed.

End Enumeration.

(** C7.  Whatever hardware id is asked for, the set [GetTapAdapters] (the
    design document's [enumerateAdapters]) returns has no two records with
    the same identifying string, and its records are in increasing order of
    that string. *)
Theorem GetTapAdapters_no_duplicate_guid
    (h : Host) (tapHardwareId : wstring) (adapters : set) (t : list event) :
  GetTapAdapters h tapHardwareId = (Return adapters, t) ->
  NoDup (map guid adapters) /\ StronglySorted guid_lt adapters.
Proof.
  intros Hrun.
  destruct (GetTapAdapters_Return _ _ _ _ Hrun) as (members & lastError & t' & _ & _ & Hloop & _).
  assert (Hs : StronglySorted guid_lt adapters).
  { eapply (GetTapAdapters_loop_invariant h tapHardwareId (StronglySorted guid_lt));
      [| |exact Hloop].
    - intros d a s _ _ _. apply emplace_sorted.
    - constructor. }
  split; [apply sorted_NoDup|]; exact Hs.
Qed.

(** C6.  Whatever hardware id is asked for, every record of the set
    [GetTapAdapters] returns was built from a present device whose registry
    has a hardware id equal to the requested one (as [wcscmp] compares; the
    same string when the requested id has no embedded NUL); and a device
    whose hardware id is absent or different is passed over with the set
    unchanged and the enumeration going on to the next device. *)
Theorem GetTapAdapters_filter
    (h : Host) (tapHardwareId : wstring) (adapters : set) (t : list event) :
  GetTapAdapters h tapHardwareId = (Return adapters, t) ->
  exists members lastError,
    SetupDiGetClassDevs h = inr (members, lastError)
    /\ (forall r, In r adapters ->
          exists d value,
            In d members
            /\ GetDeviceRegistryStringProperty d SPDRP_HARDWAREID = Return (Some value)
            /\ c_str value = c_str tapHardwareId
            /\ (~ In 0 tapHardwareId -> value = tapHardwareId)
            /\ ~ filtered_out tapHardwareId d
            /\ construct_NetworkAdapter h d = Return r)
    /\ (forall d rest i s,
          filtered_out tapHardwareId d ->
          GetTapAdapters_loop h tapHardwareId (d :: rest) lastError i s
          = if i =? INT_MAX then undefined
            else GetTapAdapters_loop h tapHardwareId rest lastError (i + 1) s).
Proof.
  intros Hrun.
  destruct (GetTapAdapters_Return _ _ _ _ Hrun)
    as (members & lastError & t' & Hdevs & _ & Hloop & _).
  exists members, lastError. split; [exact Hdevs|]. split.
  - intros r Hr.
    destruct (GetTapAdapters_loop_provenance _ _ _ _ _ _ _ Hloop r Hr)
      as (d & Hin & Hcar & Hb).
    pose proof Hcar as (value & Hq & Heq).
    exists d, value. repeat split; auto.
    + intros Hnul. rewrite (c_str_id tapHardwareId Hnul) in Heq. rewrite <- Heq.
      unfold GetDeviceRegistryStringProperty in Hq.
      destruct (SetupDiGetDeviceRegistryPropertyW_size d SPDRP_HARDWAREID)
        as [[st le] rs].
      destruct (negb st && negb (le =? ERROR_INSUFFICIENT_BUFFER)).
      * destruct (negb (le =? ERROR_INVALID_DATA)); discriminate.
      * destruct (SetupDiGetDeviceRegistryPropertyW_fill _ _ _); [discriminate|].
        injection Hq as <-. symmetry. apply c_str_idem.
    + intros Hf. exact (filtered_out_not_carries _ _ Hf Hcar).
  - intros d rest i s. apply GetTapAdapters_loop_filtered_out.
Qed.

Lemma GetTapAdapters_filter_witness :
  exists members lastError,
    SetupDiGetClassDevs Examples.upgraded = inr (members, lastError)
    /\ (forall r, In r [Fake.record Examples.mullvad] ->
          exists d value,
            In d members
            /\ GetDeviceRegistryStringProperty d SPDRP_HARDWAREID = Return (Some value)
            /\ c_str value = c_str TAP_HARDWARE_ID
            /\ (~ In 0 TAP_HARDWARE_ID -> value = TAP_HARDWARE_ID)
            /\ ~ filtered_out TAP_HARDWARE_ID d
            /\ construct_NetworkAdapter Examples.upgraded d = Return r)
    /\ (forall d rest i s,
          filtered_out TAP_HARDWARE_ID d ->
          GetTapAdapters_loop Examples.upgraded TAP_HARDWARE_ID (d :: rest) lastError i s
          = if i =? INT_MAX then undefined
            else GetTapAdapters_loop Examples.upgraded TAP_HARDWARE_ID rest
                   lastError (i + 1) s).
Proof.
  apply (GetTapAdapters_filter Examples.upgraded TAP_HARDWARE_ID
           [Fake.record Examples.mullvad] [GetClassDevs; DestroyDeviceInfoList]).
  vm_compute. reflexivity.
Defined.


Lemma GetTapAdapters_no_duplicate_guid_witness :
  NoDup (map guid [Fake.record Examples.old_mullvad; Fake.record Examples.old_other])
  /\ StronglySorted guid_lt
       [Fake.record Examples.old_mullvad; Fake.record Examples.old_other].
Proof.
  apply (GetTapAdapters_no_duplicate_guid Examples.upgraded DEPRECATED_TAP_HARDWARE_ID
           _ [GetClassDevs; DestroyDeviceInfoList]).
  vm_compute. reflexivity.
Defined.


(** ** The current adapter *)

Lemma LogAdapters_details (description : wstring) (adapters : set) :
  exists details,
    LogAdapters description adapters
      = (Return tt, [PluginLogWithDetails description details])
    /\ forall a, In a adapters ->
         In (L "    Guid: " ++ guid a) details
         /\ In (L "    Name: " ++ name a) details
         /\ In (L "    Alias: " ++ alias a) details.
Proof.
  unfold LogAdapters, emit. eexists. split; [reflexivity|].
  intros a Hin. repeat split; apply in_flat_map; exists a; (split; [exact Hin|]);
    simpl; auto.
Qed.

(** C1.  For the set [added] that enumerating the current hardware id
    yields: if it holds exactly one adapter, [getAdapter] returns that
    adapter and does nothing else; if it holds two or more, [getAdapter]
    throws "Identified more TAP adapters than expected" (the design
    document's AmbiguousAdapterError) right after a log entry that has the
    guid, name and alias of every adapter of the set. *)
Theorem getAdapter_one_or_many (h : Host) (added : set) (t : list event) :
  GetTapAdapters h TAP_HARDWARE_ID = (Return added, t) ->
  (forall a, added = [a] -> getAdapter h = (Return a, t))
  /\ (2 <= size added ->
      exists details,
        getAdapter h
          = (Throw ambiguous,
             t ++ [PluginLogWithDetails (L "Enumerable network TAP adapters") details])
        /\ forall a, In a added ->
             In (L "    Guid: " ++ guid a) details
             /\ In (L "    Name: " ++ name a) details
             /\ In (L "    Alias: " ++ alias a) details).
Proof.
  intros Hrun. unfold getAdapter. rewrite Hrun. split.
  - intros a ->. simpl. rewrite app_nil_r. reflexivity.
  - intros Hsize.
    assert (Hlt : (1 <? size added) = true) by (apply Z.ltb_lt; lia).
    destruct (LogAdapters_details (L "Enumerable network TAP adapters") added)
      as (details & Hlog & Hall).
    exists details. split; [|exact Hall].
    rewrite tbind_Return, Hlt, Hlog. reflexivity.
Qed.

Lemma getAdapter_one_or_many_witness :
  getAdapter Examples.upgraded
  = (Return (Fake.record Examples.mullvad), [GetClassDevs; DestroyDeviceInfoList]).
Proof.
  apply (getAdapter_one_or_many Examples.upgraded
           [Fake.record Examples.mullvad] [GetClassDevs; DestroyDeviceInfoList]).
  - vm_compute. reflexivity.
  - reflexivity.
Defined.

Example getAdapter_two_adapters :
  fst (getAdapter (Fake.host (map Fake.device [Examples.mullvad_1; Examples.mullvad])
                             Examples.known 42))
  = Throw ambiguous.
Proof. vm_compute. reflexivity. Qed.

(** C2.  When enumerating the current hardware id yields the empty set,
    [getAdapter] makes no test that stops it: it goes on to [*added.begin()]
    on the empty set, which is undefined.  The dereference is defined if
    and only if the set has an element, and so is [getAdapter] once the
    enumeration has returned. *)
Theorem getAdapter_empty_set (h : Host) (added : set) (t : list event) :
  GetTapAdapters h TAP_HARDWARE_ID = (Return added, t) ->
  (added = [] -> getAdapter h = (Undefined, t))
  /\ (fst (deref added (begin added)) = Undefined <-> added = [])
  /\ (fst (getAdapter h) = Undefined <-> added = []).
Proof.
  intros Hrun. unfold getAdapter. rewrite Hrun.
  split; [|split].
  - intros ->. simpl. rewrite app_nil_r. reflexivity.
  - destruct added; simpl; split; congruence.
  - destruct added as [|a [|b rest]].
    + simpl. tauto.
    + simpl. split; congruence.
    + assert (Hlt : (1 <? size (a :: b :: rest)) = true).
      { apply Z.ltb_lt. unfold size. simpl List.length. lia. }
      rewrite tbind_Return, Hlt.
      destruct (LogAdapters_details (L "Enumerable network TAP adapters")
                  (a :: b :: rest)) as (details & -> & _).
      simpl. split; congruence.
Qed.

Lemma getAdapter_empty_set_witness :
  getAdapter (Fake.host [Fake.device Examples.ethernet] Examples.known 42)
  = (Undefined, [GetClassDevs; DestroyDeviceInfoList]).
Proof.
  apply (getAdapter_empty_set
           (Fake.host [Fake.device Examples.ethernet] Examples.known 42)
           [] [GetClassDevs; DestroyDeviceInfoList]).
  - vm_compute. reflexivity.
  - reflexivity.
Defined.

(** ** Removal of the legacy adapter *)

Lemma c_str_DEPRECATED : c_str DEPRECATED_TAP_HARDWARE_ID = DEPRECATED_TAP_HARDWARE_ID.
Proof. reflexivity. Qed.

Lemma carries_legacy (d : Device) (value : wstring) :
  GetDeviceRegistryStringProperty d SPDRP_HARDWAREID = Return (Some value) ->
  ((wcscmp DEPRECATED_TAP_HARDWARE_ID (c_str value) =? 0) = true
   <-> carries DEPRECATED_TAP_HARDWARE_ID d).
Proof.
  intros Hq. rewrite Z.eqb_eq, wcscmp_eq. split.
  - intros E. exists value. split; [exact Hq|]. now rewrite c_str_DEPRECATED.
  - intros (value' & Hq' & E). rewrite Hq in Hq'. injection Hq' as <-.
    now rewrite c_str_DEPRECATED in E.
Qed.

Section Removal.

Variable mullvadGuid : wstring.
Variable lastError : DWORD.

Lemma DeleteOldMullvadAdapter_loop_cons (d : Device) (rest : list Device)
    (i n : Z) :
  DeleteOldMullvadAdapter_loop mullvadGuid (d :: rest) lastError i n
  = let next n' :=
      if i =? INT_MAX then undefined else DeleteOldMullvadAdapter_loop mullvadGuid rest lastError (i + 1) n' in
    match GetDeviceRegistryStringProperty d SPDRP_HARDWAREID with
    | Return (Some value) =>
        if wcscmp DEPRECATED_TAP_HARDWARE_ID (c_str value) =? 0 then
          match GetNetCfgInstanceId d with
          | Return instanceId =>
              if compare instanceId mullvadGuid =? 0 then
                match SetupDiRemoveDevice d with
                | inl lastError' =>
                    (Throw (removal_failed lastError'), [RemoveDevice i])
                | inr _ => (fst (next n), RemoveDevice i :: snd (next n))
                end
              else if n =? INT_MAX then undefined else next (n + 1)
          | Throw e => throw e
          | Undefined => undefined
          end
        else next n
    | Return None => next n
    | Throw e => throw e
    | Undefined => undefined
    end.
Proof.
  cbn [DeleteOldMullvadAdapter_loop]. cbv zeta.
  destruct (GetDeviceRegistryStringProperty d SPDRP_HARDWAREID) as [[value|]|e|];
    try reflexivity; rewrite tbind_lift_Return; [|reflexivity].
  destruct (wcscmp DEPRECATED_TAP_HARDWARE_ID (c_str value) =? 0); [|reflexivity].
  destruct (GetNetCfgInstanceId d) as [instanceId|e|]; try reflexivity.
  rewrite tbind_lift_Return.
  destruct (compare instanceId mullvadGuid =? 0); [|reflexivity].
  cbn [negb]. rewrite tbind_emit.
  destruct (SetupDiRemoveDevice d); reflexivity.
Qed.

(** A removal request in the trace of the loop is for a member at or after
    the index the loop started from, and that member is a legacy device with
    the identity looked for. *)
Lemma DeleteOldMullvadAdapter_loop_requests (members : list Device) :
  forall i n j,
    In (RemoveDevice j) (snd (DeleteOldMullvadAdapter_loop mullvadGuid members lastError i n)) ->
    exists k d, j = i + Z.of_nat k /\ nth_error members k = Some d
                /\ carries DEPRECATED_TAP_HARDWARE_ID d
                /\ GetNetCfgInstanceId d = Return mullvadGuid.
Proof.
  induction members as [|d rest IH]; intros i n j.
  - simpl. destruct (lastError =? ERROR_NO_MORE_ITEMS); intros [].
  - assert (Hnext : forall n',
      In (RemoveDevice j)
         (snd (if i =? INT_MAX then undefined else DeleteOldMullvadAdapter_loop mullvadGuid rest lastError (i + 1) n')) ->
      exists k d0, j = i + Z.of_nat k /\ nth_error (d :: rest) k = Some d0
                   /\ carries DEPRECATED_TAP_HARDWARE_ID d0
                   /\ GetNetCfgInstanceId d0 = Return mullvadGuid).
    { intros n'. destruct (i =? INT_MAX); [intros []|].
      intros H. destruct (IH _ _ _ H) as (k & d0 & -> & Hk & Hc & Hg).
      exists (S k), d0. repeat split; auto. lia. }
    rewrite DeleteOldMullvadAdapter_loop_cons. cbv zeta.
    destruct (GetDeviceRegistryStringProperty d SPDRP_HARDWAREID)
      as [[value|]|e|] eqn:Hq; try (intros []); try apply Hnext.
    destruct (wcscmp DEPRECATED_TAP_HARDWARE_ID (c_str value) =? 0) eqn:Hc;
      [|apply Hnext].
    apply (carries_legacy d value Hq) in Hc.
    destruct (GetNetCfgInstanceId d) as [instanceId|e|] eqn:Hg; try (intros []).
    destruct (Z.eqb_spec (compare instanceId mullvadGuid) 0) as [E|E].
    + apply lex_compare_eq in E. subst instanceId.
      assert (Hhere : exists k d0, i = i + Z.of_nat k /\ nth_error (d :: rest) k = Some d0
                        /\ carries DEPRECATED_TAP_HARDWARE_ID d0
                        /\ GetNetCfgInstanceId d0 = Return mullvadGuid).
      { exists 0%nat, d. repeat split; auto. simpl. lia. }
      destruct (SetupDiRemoveDevice d).
      * intros [H|[]]. injection H as <-. exact Hhere.
      * intros [H|H]; [injection H as <-; exact Hhere | exact (Hnext _ H)].
    + destruct (n =? INT_MAX); [intros [] | apply Hnext].
Qed.

Lemma DeleteOldMullvadAdapter_loop_requests_from (members : list Device)
    (i n j : Z) :
  In (RemoveDevice j) (snd (DeleteOldMullvadAdapter_loop mullvadGuid members lastError i n)) -> i <= j.
Proof.
  intros H. destruct (DeleteOldMullvadAdapter_loop_requests _ _ _ _ H)
    as (k & _ & -> & _). lia.
Qed.


(** What a run of the loop that reaches the end has done with each
    member. *)
Lemma DeleteOldMullvadAdapter_loop_Return (members : list Device) :
  forall i n n' t,
    DeleteOldMullvadAdapter_loop mullvadGuid members lastError i n = (Return n', t) ->
    n <= n'
    /\ (n < n' <->
        exists d g, In d members /\ carries DEPRECATED_TAP_HARDWARE_ID d
                    /\ GetNetCfgInstanceId d = Return g /\ g <> mullvadGuid)
    /\ (forall k d, nth_error members k = Some d ->
          carries DEPRECATED_TAP_HARDWARE_ID d ->
          exists g, GetNetCfgInstanceId d = Return g
            /\ (g = mullvadGuid ->
                In (RemoveDevice (i + Z.of_nat k)) t
                /\ SetupDiRemoveDevice d = inr tt)
            /\ (g <> mullvadGuid -> ~ In (RemoveDevice (i + Z.of_nat k)) t)).
Proof.
  induction members as [|d0 rest IH]; intros i n n' t Hrun.
  - simpl in Hrun.
    destruct (lastError =? ERROR_NO_MORE_ITEMS); [|discriminate].
    injection Hrun as <- <-. split; [lia|]. split.
    + split; [lia | intros (d & g & [] & _)].
    + intros k d Hk. destruct k; discriminate.
  - pose proof (DeleteOldMullvadAdapter_loop_requests (d0 :: rest) i n) as Hreq.
    rewrite Hrun in Hreq. simpl snd in Hreq.
    assert (Hnot : forall k d g,
              nth_error (d0 :: rest) k = Some d ->
              GetNetCfgInstanceId d = Return g -> g <> mullvadGuid ->
              ~ In (RemoveDevice (i + Z.of_nat k)) t).
    { intros k d g Hk Hg Hne Hin.
      destruct (Hreq _ Hin) as (k' & d' & Hj & Hk' & _ & Hg').
      assert (k' = k) by lia. subst k'. rewrite Hk in Hk'. injection Hk' as <-.
      rewrite Hg in Hg'. injection Hg' as ->. contradiction. }
    rewrite DeleteOldMullvadAdapter_loop_cons in Hrun. cbv zeta in Hrun.
    (* the three verdicts on the first member *)
    assert (Hcase :
      (exists t',
         DeleteOldMullvadAdapter_loop mullvadGuid rest lastError (i + 1) n = (Return n', t')
         /\ (forall j, In (RemoveDevice j) t' -> In (RemoveDevice j) t)
         /\ (~ carries DEPRECATED_TAP_HARDWARE_ID d0
             \/ (carries DEPRECATED_TAP_HARDWARE_ID d0
                 /\ GetNetCfgInstanceId d0 = Return mullvadGuid
                 /\ In (RemoveDevice i) t /\ SetupDiRemoveDevice d0 = inr tt)))
      \/ (exists g,
            DeleteOldMullvadAdapter_loop mullvadGuid rest lastError (i + 1) (n + 1) = (Return n', t)
            /\ carries DEPRECATED_TAP_HARDWARE_ID d0
            /\ GetNetCfgInstanceId d0 = Return g /\ g <> mullvadGuid)).
    { destruct (GetDeviceRegistryStringProperty d0 SPDRP_HARDWAREID)
        as [[value|]|e|] eqn:Hq; try discriminate.
      - destruct (wcscmp DEPRECATED_TAP_HARDWARE_ID (c_str value) =? 0) eqn:Hc.
        + apply (carries_legacy d0 value Hq) in Hc.
          destruct (GetNetCfgInstanceId d0) as [g|e|] eqn:Hg; try discriminate.
          destruct (Z.eqb_spec (compare g mullvadGuid) 0) as [E|E].
          * apply lex_compare_eq in E. subst g.
            destruct (SetupDiRemoveDevice d0) as [err|[]] eqn:Hrem; [discriminate|].
            destruct (i =? INT_MAX); [discriminate|].
            destruct (DeleteOldMullvadAdapter_loop mullvadGuid rest lastError (i + 1) n) as [o t'] eqn:Hn.
            simpl in Hrun. injection Hrun as -> <-.
            left. exists t'. split; [reflexivity|]. split.
            -- intros j Hj. now right.
            -- right. repeat split; auto. now left.
          * destruct (n =? INT_MAX); [discriminate|].
            destruct (i =? INT_MAX); [discriminate|].
            right. exists g. repeat split; auto.
            intros ->. apply E, lex_compare_refl.
        + destruct (i =? INT_MAX); [discriminate|].
          left. exists t. split; [exact Hrun|]. split; [auto|]. left.
          intros Hcar. apply (carries_legacy d0 value Hq) in Hcar. congruence.
      - destruct (i =? INT_MAX); [discriminate|].
        left. exists t. split; [exact Hrun|]. split; [auto|]. left.
        intros (value & Hv & _). congruence. }
    destruct Hcase as [(t' & Hn & Hsub & Hhead) | (g & Hn & Hc0 & Hg0 & Hne0)].
    + destruct (IH _ _ _ _ Hn) as (Hle & Hcount & Hall).
      split; [exact Hle|]. split.
      * rewrite Hcount. split.
        -- intros (d & g & Hin & H). exists d, g. split; [now right | exact H].
        -- intros (d & g & [<-|Hin] & Hc & Hg & Hne); [|eauto 6].
           destruct Hhead as [Hnc | (_ & Hg' & _)]; [contradiction|].
           rewrite Hg in Hg'. injection Hg' as ->. contradiction.
      * intros [|k] d Hk Hc; simpl in Hk.
        -- injection Hk as <-.
           destruct Hhead as [Hnc | (_ & Hg & Hin & Hrem)]; [contradiction|].
           exists mullvadGuid. split; [exact Hg|]. split.
           ++ intros _. split; [|exact Hrem].
              replace (i + Z.of_nat 0) with i by lia. exact Hin.
           ++ intros Hne. contradiction.
        -- destruct (Hall k d Hk Hc) as (g & Hg & Heq & Hne).
           exists g. split; [exact Hg|]. split.
           ++ intros E. destruct (Heq E) as [Hin Hrem]. split; [|exact Hrem].
              apply Hsub.
              replace (i + Z.of_nat (S k)) with (i + 1 + Z.of_nat k) by lia.
              exact Hin.
           ++ intros E. apply (Hnot (S k) d g); auto.
    + destruct (IH _ _ _ _ Hn) as (Hle & Hcount & Hall).
      split; [lia|]. split.
      * split; [intros _ | lia]. exists d0, g. split; [now left | auto].
      * intros [|k] d Hk Hc; simpl in Hk.
        -- injection Hk as <-. exists g. split; [exact Hg0|]. split.
           ++ intros E. contradiction.
           ++ intros _. apply (Hnot 0%nat d0 g); auto.
        -- destruct (Hall k d Hk Hc) as (g' & Hg & Heq & Hne).
           exists g'. split; [exact Hg|]. split.
           ++ intros E. destruct (Heq E) as [Hin Hrem]. split; [|exact Hrem].
              replace (i + Z.of_nat (S k)) with (i + 1 + Z.of_nat k) by lia.
              exact Hin.
           ++ intros E. apply (Hnot (S k) d g'); auto.
Qed.

End Removal.

Lemma GetTapAdapters_loop_requests_nothing (h : Host) (tapHardwareId : wstring)
    (members : list Device) (lastError : DWORD) :
  forall i s j,
    ~ In (RemoveDevice j)
         (snd (GetTapAdapters_loop h tapHardwareId members lastError i s)).
Proof.
  induction members as [|d rest IH]; intros i s j.
  - simpl. destruct (lastError =? ERROR_NO_MORE_ITEMS); intros [].
  - assert (Hnext : forall s',
      ~ In (RemoveDevice j)
           (snd (if i =? INT_MAX then undefined
                 else GetTapAdapters_loop h tapHardwareId rest lastError (i + 1) s'))).
    { intros s'. destruct (i =? INT_MAX); [intros [] | apply IH]. }
    rewrite GetTapAdapters_loop_cons. cbv zeta.
    destruct (GetDeviceRegistryStringProperty d SPDRP_HARDWAREID) as [[value|]|e|];
      try (intros []); try apply Hnext.
    destruct (wcscmp (c_str value) (c_str tapHardwareId) =? 0); [|apply Hnext].
    destruct (construct_NetworkAdapter h d);
      try solve [intros []]; try apply Hnext.
    intros [H|H]; [discriminate | exact (Hnext _ H)].
Qed.

Lemma GetTapAdapters_requests_nothing (h : Host) (tapHardwareId : wstring) (j : Z) :
  ~ In (RemoveDevice j) (snd (GetTapAdapters h tapHardwareId)).
Proof.
  unfold GetTapAdapters. rewrite tbind_emit.
  destruct (SetupDiGetClassDevs h) as [err|[members lastError]].
  - intros [H|[]]. discriminate.
  - destruct (Nci_ctor h).
    + intros [H|[H|[]]]; discriminate.
    + pose proof (GetTapAdapters_loop_requests_nothing h tapHardwareId
                    members lastError 0 [] j) as Hloop.
      destruct (GetTapAdapters_loop h tapHardwareId members lastError 0 [])
        as [[r|e|] t]; simpl in Hloop |- *;
        intros [H|H]; try discriminate; try (apply Hloop; exact H);
        apply in_app_or in H; destruct H as [H'|[H'|[]]];
        try discriminate; auto.
Qed.

(** [DeleteOldMullvadAdapter] once the matcher has found the adapter. *)
Lemma DeleteOldMullvadAdapter_found (h : Host) (tapAdapters : set)
    (t0 : list event) (mullvadAdapter : NetworkAdapter)
    (members : list Device) (lastError : DWORD) :
  GetTapAdapters h DEPRECATED_TAP_HARDWARE_ID = (Return tapAdapters, t0) ->
  FindMullvadAdapter tapAdapters = Some mullvadAdapter ->
  SetupDiGetClassDevs h = inr (members, lastError) ->
  DeleteOldMullvadAdapter h
  = match DeleteOldMullvadAdapter_loop (guid mullvadAdapter) members lastError 0 0 with
    | (Return n, t) =>
        (Return (if 0 <? n then SOME_REMAINING_TAP_ADAPTERS
                 else NO_REMAINING_TAP_ADAPTERS),
         t0 ++ GetClassDevs :: t ++ [DestroyDeviceInfoList])
    | (Throw e, t) => (Throw e, t0 ++ GetClassDevs :: t ++ [DestroyDeviceInfoList])
    | (Undefined, t) => (Undefined, t0 ++ GetClassDevs :: t)
    end.
Proof.
  intros Hrun Hfind Hdevs. unfold DeleteOldMullvadAdapter.
  rewrite Hrun, tbind_Return, Hfind, tbind_emit, Hdevs.
  destruct (DeleteOldMullvadAdapter_loop (guid mullvadAdapter) members lastError 0 0)
    as [[n|e|] t]; simpl; try reflexivity.
  now rewrite app_nil_r.
Qed.



(** C5.  When the matcher finds no product adapter among the adapters
    enumerated by the legacy hardware id, [DeleteOldMullvadAdapter] throws
    "Mullvad TAP adapter not found" (the design document's
    AdapterNotFoundError) straight after the enumeration, and no device
    removal is requested.  In particular, when the present devices are
    enumerated to the end and none of them carries the legacy hardware id,
    the enumerated set is empty and that is what happens. *)
Theorem DeleteOldMullvadAdapter_not_found (h : Host) :
  (forall tapAdapters t0,
     GetTapAdapters h DEPRECATED_TAP_HARDWARE_ID = (Return tapAdapters, t0) ->
     FindMullvadAdapter tapAdapters = None ->
     DeleteOldMullvadAdapter h = (Throw not_found, t0)
     /\ forall j, ~ In (RemoveDevice j) (snd (DeleteOldMullvadAdapter h)))
  /\ (forall members,
        SetupDiGetClassDevs h = inr (members, ERROR_NO_MORE_ITEMS) ->
        Nci_ctor h = None ->
        Z.of_nat (List.length members) <= INT_MAX ->
        (forall d, In d members -> filtered_out DEPRECATED_TAP_HARDWARE_ID d) ->
        exists t0,
          GetTapAdapters h DEPRECATED_TAP_HARDWARE_ID = (Return [], t0)
          /\ DeleteOldMullvadAdapter h = (Throw not_found, t0)
          /\ forall j, ~ In (RemoveDevice j) (snd (DeleteOldMullvadAdapter h))).
Proof.
  assert (Hnone : forall tapAdapters t0,
            GetTapAdapters h DEPRECATED_TAP_HARDWARE_ID = (Return tapAdapters, t0) ->
            FindMullvadAdapter tapAdapters = None ->
            DeleteOldMullvadAdapter h = (Throw not_found, t0)
            /\ forall j, ~ In (RemoveDevice j) (snd (DeleteOldMullvadAdapter h))).
  { intros tapAdapters t0 Hrun Hfind.
    assert (Heq : DeleteOldMullvadAdapter h = (Throw not_found, t0)).
    { unfold DeleteOldMullvadAdapter.
      rewrite Hrun, tbind_Return, Hfind. simpl. now rewrite app_nil_r. }
    split; [exact Heq|]. intros j. rewrite Heq. simpl.
    pose proof (GetTapAdapters_requests_nothing h DEPRECATED_TAP_HARDWARE_ID j) as H.
    now rewrite Hrun in H. }
  split; [exact Hnone|].
  intros members Hdevs Hnci Hlen Hout.
  destruct (GetTapAdapters_loop_completes h DEPRECATED_TAP_HARDWARE_ID members 0 [])
    as (r & t & Hloop & _).
  - lia.
  - intros d Hin. destruct (Hout d Hin) as [Hq | (value & Hq & _)]; eauto.
  - intros d Hin Hc. elim (filtered_out_not_carries _ _ (Hout d Hin) Hc).
  - assert (Hempty : r = []).
    { destruct r as [|a rest]; [reflexivity|].
      destruct (GetTapAdapters_loop_provenance _ _ _ _ _ _ _ Hloop a (or_introl eq_refl))
        as (d & Hin & Hc & _).
      elim (filtered_out_not_carries _ _ (Hout d Hin) Hc). }
    subst r.
    assert (Hrun : GetTapAdapters h DEPRECATED_TAP_HARDWARE_ID
                   = (Return [], GetClassDevs :: t ++ [DestroyDeviceInfoList])).
    { unfold GetTapAdapters. rewrite tbind_emit, Hdevs, Hnci, Hloop. reflexivity. }
    exists (GetClassDevs :: t ++ [DestroyDeviceInfoList]).
    split; [exact Hrun|]. apply (Hnone [] _ Hrun). reflexivity.
Qed.


(** The examples of the design document: the match and an unrelated legacy
    device; the match alone; no legacy device. *)
Example DeleteOldMullvadAdapter_some_remaining :
  DeleteOldMullvadAdapter Examples.upgraded
  = (Return SOME_REMAINING_TAP_ADAPTERS,
     [GetClassDevs; DestroyDeviceInfoList; GetClassDevs; RemoveDevice 2;
      DestroyDeviceInfoList]).
Proof. vm_compute. reflexivity. Qed.

Example DeleteOldMullvadAdapter_none_remaining :
  DeleteOldMullvadAdapter
    (Fake.host (map Fake.device [Examples.mullvad; Examples.old_mullvad])
               Examples.known 42)
  = (Return NO_REMAINING_TAP_ADAPTERS,
     [GetClassDevs; DestroyDeviceInfoList; GetClassDevs; RemoveDevice 1;
      DestroyDeviceInfoList]).
Proof. vm_compute. reflexivity. Qed.

Lemma DeleteOldMullvadAdapter_not_found_witness :
  exists t0,
    GetTapAdapters Examples.unpinned DEPRECATED_TAP_HARDWARE_ID = (Return [], t0)
    /\ DeleteOldMullvadAdapter Examples.unpinned = (Throw not_found, t0)
    /\ forall j, ~ In (RemoveDevice j) (snd (DeleteOldMullvadAdapter Examples.unpinned)).
Proof.
  apply (proj2 (DeleteOldMullvadAdapter_not_found Examples.unpinned)
           (map Fake.device [Examples.ethernet; Examples.mullvad])).
  - reflexivity.
  - reflexivity.
  - vm_compute. discriminate.
  - intros d Hin. simpl in Hin. destruct Hin as [<-|[<-|[]]].
    + left. reflexivity.
    + right. eexists. split; [reflexivity|]. vm_compute. discriminate.
Defined.

(** ** The exported operations *)

Import DriverLogic.

Lemma try_catch_quiet_trace {A B : Type} (body : traced A)
    (k : A -> B) (handler : exception -> B) :
  snd (try_catch (x <- body ;; ret (k x)) (fun err => ret (handler err)))
  = snd body.
Proof.
  destruct body as [[a|e|] t]; simpl; now rewrite ?app_nil_r.
Qed.

(** With [g_context] null, [IdentifyNewAdapter] reports GENERAL_ERROR with
    its message and touches nothing. *)
Lemma IdentifyNewAdapter_not_initialized (h : Host) (p : plugin) :
  g_context p = None ->
  IdentifyNewAdapter h p
  = (Return (pushint GENERAL_ERROR (pushstring not_initialized_message p)), []).
Proof. unfold IdentifyNewAdapter. intros ->. reflexivity. Qed.

(** [RemoveOldMullvadTap] never looks at [g_context]: what it does to the
    devices is what [DeleteOldMullvadAdapter] does. *)
Lemma RemoveOldMullvadTap_trace (h : Host) (p : plugin) :
  snd (RemoveOldMullvadTap h p) = snd (DeleteOldMullvadAdapter h).
Proof.
  unfold RemoveOldMullvadTap.
  destruct (DeleteOldMullvadAdapter h) as [[[]|e|] t]; simpl;
    now rewrite ?app_nil_r.
Qed.





(** On that host the call after the failed [Initialize] identifies the
    adapter. *)
Example IdentifyNewAdapter_unpinned :
  forall p', Initialize Examples.unpinned initial = (Return p', []) ->
  IdentifyNewAdapter Examples.unpinned p'
  = (Return (pushint SUCCESS (pushstring (L "Mullvad") p')),
     [GetClassDevs; DestroyDeviceInfoList]).
Proof.
  intros p' H. vm_compute in H. injection H as <-. vm_compute. reflexivity.
Qed.

(* ------------------------------------------------------------------------- *)
(** * Further properties of the code *)

(** ** What the property readers return *)

Lemma c_str_length (s : wstring) : (List.length (c_str s) <= List.length s)%nat.
Proof.
  induction s as [|c s IH]; simpl; [lia|].
  destruct (c =? 0); simpl; lia.
Qed.

Lemma buffer_length (n : Z) (written : list wchar_t) :
  List.length (buffer n written) = Z.to_nat n.
Proof.
  unfold buffer. rewrite length_firstn, length_app, repeat_length. lia.
Qed.


Lemma c_str_before_nul (a b : wstring) : c_str (a ++ 0 :: b) = c_str a.
Proof.
  induction a as [|c a IH]; simpl; [reflexivity|].
  destruct (c =? 0); [reflexivity | now rewrite IH].
Qed.



(** X2.  [GetNetCfgInstanceId] returns a NUL-free string that ends where the
    terminator was stored: it is no longer than [strSize / sizeof(wchar_t)]
    and so has at most MAX_PATH + 1 characters.  Its behaviour is undefined
    exactly when the key opens, the value is read, and the reported size
    puts the terminator outside the vector of MAX_PATH + 2 elements. *)
Theorem GetNetCfgInstanceId_within_buffer
    (d : Device) (status : DWORD) (written : list wchar_t) (strSize : DWORD) :
  RegGetValueW_NetCfgInstanceId d (dword ((MAX_PATH + sizeof_wchar_t) * sizeof_wchar_t))
    = (status, written, strSize) ->
  (forall value,
     GetNetCfgInstanceId d = Return value ->
     ~ In 0 value
     /\ (List.length value <= Z.to_nat (strSize / sizeof_wchar_t))%nat
     /\ Z.of_nat (List.length value) <= MAX_PATH + 1)
  /\ (GetNetCfgInstanceId d = Undefined <->
      (exists key, SetupDiOpenDevRegKey d = inr key)
      /\ status = ERROR_SUCCESS
      /\ MAX_PATH + sizeof_wchar_t <= strSize / sizeof_wchar_t).
Proof.
  intros Hreg. unfold GetNetCfgInstanceId. rewrite Hreg. split.
  - intros value.
    destruct (SetupDiOpenDevRegKey d); [discriminate|].
    destruct (negb (status =? ERROR_SUCCESS)); [discriminate|].
    destruct (Z.ltb_spec (strSize / sizeof_wchar_t) (MAX_PATH + sizeof_wchar_t))
      as [Hlt|]; [|discriminate].
    intros H. injection H as <-.
    unfold store. rewrite c_str_before_nul.
    split; [apply c_str_no_nul|].
    pose proof (c_str_length
      (firstn (Z.to_nat (strSize / sizeof_wchar_t))
              (buffer (MAX_PATH + sizeof_wchar_t) written))) as Hlen.
    rewrite length_firstn, buffer_length in Hlen.
    set (q := strSize / sizeof_wchar_t) in *.
    unfold MAX_PATH, sizeof_wchar_t in Hlt, Hlen |- *.
    change (260 + 2) with 262 in Hlt, Hlen. clearbody q. split; lia.
  - destruct (SetupDiOpenDevRegKey d) as [err|key]; cbv iota.
    + split; [intros H; discriminate H | intros ((key & Hk) & _); discriminate Hk].
    + destruct (Z.eqb_spec status ERROR_SUCCESS) as [Hs|Hs]; cbn [negb]; cbv iota zeta.
      * destruct (Z.ltb_spec (strSize / sizeof_wchar_t) (MAX_PATH + sizeof_wchar_t));
           cbv iota.
        -- split; [intros H'; discriminate H' | intros (_ & _ & H'); lia].
        -- split; [intros _; eauto | reflexivity].
      * split; [intros H; discriminate H | intros (_ & H' & _); contradiction].
Qed.

Lemma GetNetCfgInstanceId_within_buffer_witness :
  ~ In 0 (L "{A}")
  /\ (List.length (L "{A}") <= Z.to_nat (8 / sizeof_wchar_t))%nat
  /\ Z.of_nat (List.length (L "{A}")) <= MAX_PATH + 1.
Proof.
  apply (proj1 (GetNetCfgInstanceId_within_buffer (Fake.device Examples.mullvad)
                  ERROR_SUCCESS (L "{A}" ++ [0]) 8 eq_refl) (L "{A}")).
  reflexivity.
Defined.



(** ** More on the enumeration *)

Lemma tbind_logged {A B : Type} (m : traced A) (ev : event) (f : A -> traced B) :
  tbind (fst m, ev :: snd m) f = (fst (tbind m f), ev :: snd (tbind m f)).
Proof.
  destruct m as [[a|e|] t]; simpl; [|reflexivity..].
  destruct (f a); reflexivity.
Qed.

(** Enumerating a list of members is enumerating a first part of it to its
    end and going on with the rest from the set and the index reached. *)
Lemma GetTapAdapters_loop_app (h : Host) (tapHardwareId : wstring)
    (front rest : list Device) (lastError : DWORD) :
  forall i s,
    GetTapAdapters_loop h tapHardwareId (front ++ rest) lastError i s
    = (s' <- GetTapAdapters_loop h tapHardwareId front ERROR_NO_MORE_ITEMS i s ;;
       GetTapAdapters_loop h tapHardwareId rest lastError
         (i + Z.of_nat (List.length front)) s').
Proof.
  induction front as [|d front IH]; intros i s.
  - simpl app. cbn [GetTapAdapters_loop]. simpl List.length.
    replace (i + Z.of_nat 0) with i by lia.
    change (ERROR_NO_MORE_ITEMS =? ERROR_NO_MORE_ITEMS) with true. cbv iota.
    now rewrite tbind_ret.
  - simpl app. rewrite !GetTapAdapters_loop_cons. cbv zeta.
    assert (Hnext : forall s0,
      (if i =? INT_MAX then undefined
       else GetTapAdapters_loop h tapHardwareId (front ++ rest) lastError (i + 1) s0)
      = (s' <- (if i =? INT_MAX then undefined
                else GetTapAdapters_loop h tapHardwareId front ERROR_NO_MORE_ITEMS
                       (i + 1) s0) ;;
         GetTapAdapters_loop h tapHardwareId rest lastError
           (i + Z.of_nat (List.length (d :: front))) s')).
    { intros s0. destruct (i =? INT_MAX); [reflexivity|].
      rewrite IH. simpl List.length.
      replace (i + 1 + Z.of_nat (List.length front))
        with (i + Z.of_nat (S (List.length front))) by lia.
      reflexivity. }
    destruct (GetDeviceRegistryStringProperty d SPDRP_HARDWAREID) as [[value|]|e|];
      try reflexivity; try apply Hnext.
    destruct (wcscmp (c_str value) (c_str tapHardwareId) =? 0); [|apply Hnext].
    destruct (construct_NetworkAdapter h d) as [a|e|];
      try reflexivity; try apply Hnext.
    rewrite tbind_logged, <- Hnext. reflexivity.
Qed.

(** A run of the loop that returns keeps the records it started with and
    holds, for every member it could build a record from, a record with that
    identifying string. *)
Lemma GetTapAdapters_loop_keeps (h : Host) (tapHardwareId : wstring)
    (members : list Device) (lastError : DWORD) :
  forall i s r t,
    GetTapAdapters_loop h tapHardwareId members lastError i s = (Return r, t) ->
    (forall x, In x s -> In x r)
    /\ (forall d a, In d members -> carries tapHardwareId d ->
          construct_NetworkAdapter h d = Return a ->
          exists a', In a' r /\ guid a' = guid a).
Proof.
  induction members as [|d rest IH]; intros i s r t Hrun.
  - simpl in Hrun. destruct (lastError =? ERROR_NO_MORE_ITEMS); [|discriminate].
    injection Hrun as <- _. split; [auto | intros ? ? []].
  - rewrite GetTapAdapters_loop_cons in Hrun. cbv zeta in Hrun.
    assert (Hpass : forall t',
      ~ carries tapHardwareId d ->
      (if i =? INT_MAX then undefined
       else GetTapAdapters_loop h tapHardwareId rest lastError (i + 1) s)
      = (Return r, t') ->
      (forall x, In x s -> In x r)
      /\ (forall d0 a, In d0 (d :: rest) -> carries tapHardwareId d0 ->
            construct_NetworkAdapter h d0 = Return a ->
            exists a', In a' r /\ guid a' = guid a)).
    { intros t' Hnc Hn. destruct (i =? INT_MAX); [discriminate|].
      destruct (IH _ _ _ _ Hn) as [Hkeep Hrec]. split; [exact Hkeep|].
      intros d0 a [<-|Hin] Hc; [contradiction | eauto]. }
    destruct (GetDeviceRegistryStringProperty d SPDRP_HARDWAREID)
      as [[value|]|e|] eqn:Hq; try discriminate.
    + destruct (wcscmp (c_str value) (c_str tapHardwareId) =? 0) eqn:Hc.
      * destruct (construct_NetworkAdapter h d) as [a|e|] eqn:Hb; try discriminate.
        -- destruct (i =? INT_MAX); [discriminate|].
           destruct (IH _ _ _ _ Hrun) as [Hkeep Hrec]. split.
           ++ intros x Hx. apply Hkeep, emplace_keeps, Hx.
           ++ intros d0 a0 [<-|Hin] Hc0 Hb0; [|eauto].
              rewrite Hb in Hb0. injection Hb0 as <-.
              destruct (emplace_present a s) as (a' & Hin' & Hg).
              exists a'. split; [apply Hkeep, Hin' | exact Hg].
        -- destruct (i =? INT_MAX); [discriminate|].
           destruct (GetTapAdapters_loop h tapHardwareId rest lastError (i + 1) s)
             as [o t'] eqn:Hn.
           simpl in Hrun. injection Hrun as -> _.
           destruct (IH _ _ _ _ Hn) as [Hkeep Hrec]. split; [exact Hkeep|].
           intros d0 a0 [<-|Hin] Hc0 Hb0; [congruence | eauto].
      * apply (Hpass t); [|exact Hrun]. intros Hcar.
        rewrite (carries_compare tapHardwareId d value Hq Hcar) in Hc. discriminate.
    + apply (Hpass t); [|exact Hrun].
      intros (value & Hv & _). rewrite Hq in Hv. discriminate.
Qed.

(** X4.  Enumeration composes: running [GetTapAdapters]' loop over a list
    of devices gives what running it over a first part (to its end) and
    then over the rest, from the set and member index reached, gives; the
    log is the two logs in order, and a failure in the first part is the
    failure of the whole. *)
Theorem GetTapAdapters_loop_concat (h : Host) (tapHardwareId : wstring)
    (front rest : list Device) (lastError : DWORD) (i : Z) (s : set) :
  GetTapAdapters_loop h tapHardwareId (front ++ rest) lastError i s
  = match GetTapAdapters_loop h tapHardwareId front ERROR_NO_MORE_ITEMS i s with
    | (Return s', t) =>
        (fst (GetTapAdapters_loop h tapHardwareId rest lastError
                (i + Z.of_nat (List.length front)) s'),
         t ++ snd (GetTapAdapters_loop h tapHardwareId rest lastError
                     (i + Z.of_nat (List.length front)) s'))
    | failed => failed
    end.
Proof.
  rewrite GetTapAdapters_loop_app.
  destruct (GetTapAdapters_loop h tapHardwareId front ERROR_NO_MORE_ITEMS i s)
    as [[s'|e|] t]; [apply tbind_Return | reflexivity..].
Qed.

(** X5.  The set [GetTapAdapters] returns holds exactly the identifying
    strings of the present devices that carry the requested hardware id and
    whose record can be built. *)
Theorem GetTapAdapters_guids
    (h : Host) (tapHardwareId : wstring) (adapters : set) (t : list event)
    (members : list Device) (lastError : DWORD) :
  GetTapAdapters h tapHardwareId = (Return adapters, t) ->
  SetupDiGetClassDevs h = inr (members, lastError) ->
  forall g,
    In g (map guid adapters) <->
    exists d a, In d members /\ carries tapHardwareId d
                /\ construct_NetworkAdapter h d = Return a /\ guid a = g.
Proof.
  intros Hrun Hdevs g.
  destruct (GetTapAdapters_Return _ _ _ _ Hrun)
    as (members' & lastError' & t' & Hdevs' & _ & Hloop & _).
  rewrite Hdevs in Hdevs'. injection Hdevs' as <- <-.
  split.
  - intros Hin. apply in_map_iff in Hin. destruct Hin as (a & <- & Ha).
    destruct (GetTapAdapters_loop_provenance _ _ _ _ _ _ _ Hloop a Ha)
      as (d & Hd & Hc & Hb).
    exists d, a. auto.
  - intros (d & a & Hd & Hc & Hb & <-).
    destruct (proj2 (GetTapAdapters_loop_keeps h tapHardwareId members lastError
                      0 [] adapters t' Hloop) d a Hd Hc Hb)
      as (a' & Hin & <-).
    apply in_map, Hin.
Qed.

Lemma GetTapAdapters_guids_witness :
  In (L "{A}") (map guid [Fake.record Examples.mullvad]) <->
  exists d a,
    In d (Fake.broken_device Examples.mullvad_1 5
            :: map Fake.device [Examples.ethernet; Examples.mullvad;
                                Examples.old_mullvad; Examples.old_other])
    /\ carries TAP_HARDWARE_ID d
    /\ construct_NetworkAdapter Examples.with_broken d = Return a
    /\ guid a = L "{A}".
Proof.
  apply (GetTapAdapters_guids Examples.with_broken TAP_HARDWARE_ID
           [Fake.record Examples.mullvad]
           [GetClassDevs;
            skipped Examples.with_broken (WindowsError 5 "SetupDiOpenDevRegKey");
            DestroyDeviceInfoList]
           (Fake.broken_device Examples.mullvad_1 5
              :: map Fake.device [Examples.ethernet; Examples.mullvad;
                                  Examples.old_mullvad; Examples.old_other])
           ERROR_NO_MORE_ITEMS).
  - vm_compute. reflexivity.
  - reflexivity.
Defined.

Lemma GetTapAdapters_loop_query_throws (h : Host) (tapHardwareId : wstring)
    (members : list Device) (lastError : DWORD) (d : Device) (e : exception) :
  In d members ->
  GetDeviceRegistryStringProperty d SPDRP_HARDWAREID = Throw e ->
  forall i s r t,
    GetTapAdapters_loop h tapHardwareId members lastError i s <> (Return r, t).
Proof.
  induction members as [|d0 rest IH]; intros Hin Hq i s r t; [destruct Hin|].
  rewrite GetTapAdapters_loop_cons. cbv zeta.
  assert (Hnext : forall s0 t0,
    In d rest ->
    (if i =? INT_MAX then undefined
     else GetTapAdapters_loop h tapHardwareId rest lastError (i + 1) s0)
    <> (Return r, t0)).
  { intros s0 t0 Hr. destruct (i =? INT_MAX); [discriminate | now apply IH]. }
  destruct Hin as [<-|Hin]; [rewrite Hq; discriminate|].
  destruct (GetDeviceRegistryStringProperty d0 SPDRP_HARDWAREID) as [[value|]|e0|];
    try discriminate; try (apply Hnext; exact Hin).
  destruct (wcscmp (c_str value) (c_str tapHardwareId) =? 0);
    [|apply Hnext; exact Hin].
  destruct (construct_NetworkAdapter h d0); try discriminate;
    try (apply Hnext; exact Hin).
  intros H. apply (Hnext s (snd (if i =? INT_MAX then undefined
     else GetTapAdapters_loop h tapHardwareId rest lastError (i + 1) s)) Hin).
  injection H as H1 H2. rewrite <- H1. apply surjective_pairing.
Qed.

Lemma GetTapAdapters_loop_bad_end (h : Host) (tapHardwareId : wstring)
    (members : list Device) (lastError : DWORD) :
  lastError <> ERROR_NO_MORE_ITEMS ->
  forall i s r t,
    GetTapAdapters_loop h tapHardwareId members lastError i s <> (Return r, t).
Proof.
  intros Hbad i s r t Hrun.
  rewrite <- (app_nil_r members), GetTapAdapters_loop_app in Hrun.
  destruct (GetTapAdapters_loop h tapHardwareId members ERROR_NO_MORE_ITEMS i s)
    as [[s'|e|] t0]; try discriminate.
  rewrite tbind_Return in Hrun. simpl in Hrun.
  destruct (Z.eqb_spec lastError ERROR_NO_MORE_ITEMS); [contradiction|].
  discriminate.
Qed.

(** X6.  Two failures end the whole enumeration, unlike a record that
    cannot be built: [GetTapAdapters] returns no set when the hardware-id
    query of any present device throws, nor when [SetupDiEnumDeviceInfo]
    stops with an error other than ERROR_NO_MORE_ITEMS; in the second case,
    when every query answers, what it throws is that error, after the
    handle is released. *)
Theorem GetTapAdapters_fatal_failures
    (h : Host) (tapHardwareId : wstring) (members : list Device) (lastError : DWORD) :
  SetupDiGetClassDevs h = inr (members, lastError) ->
  (forall d e,
     In d members ->
     GetDeviceRegistryStringProperty d SPDRP_HARDWAREID = Throw e ->
     forall r t, GetTapAdapters h tapHardwareId <> (Return r, t))
  /\ (lastError <> ERROR_NO_MORE_ITEMS ->
      (forall r t, GetTapAdapters h tapHardwareId <> (Return r, t))
      /\ (Nci_ctor h = None ->
          Z.of_nat (List.length members) <= INT_MAX ->
          (forall d, In d members ->
             exists o, GetDeviceRegistryStringProperty d SPDRP_HARDWAREID = Return o) ->
          (forall d, In d members -> carries tapHardwareId d ->
             construct_NetworkAdapter h d <> Undefined) ->
          exists t,
            GetTapAdapters h tapHardwareId
            = (Throw (WindowsError lastError
                 "SetupDiEnumDeviceInfo() failed while enumerating network adapters"),
               GetClassDevs :: t ++ [DestroyDeviceInfoList]))).
Proof.
  intros Hdevs.
  assert (Hloop : forall r t,
            GetTapAdapters h tapHardwareId = (Return r, t) ->
            exists t', GetTapAdapters_loop h tapHardwareId members lastError 0 []
                       = (Return r, t')).
  { intros r t Hrun.
    destruct (GetTapAdapters_Return _ _ _ _ Hrun)
      as (members' & lastError' & t' & Hdevs' & _ & Hl & _).
    rewrite Hdevs in Hdevs'. injection Hdevs' as <- <-. eauto. }
  split; [|intros Hbad; split].
  - intros d e Hin Hq r t Hrun. destruct (Hloop r t Hrun) as [t' Hl].
    exact (GetTapAdapters_loop_query_throws _ _ _ _ _ _ Hin Hq _ _ _ _ Hl).
  - intros r t Hrun. destruct (Hloop r t Hrun) as [t' Hl].
    exact (GetTapAdapters_loop_bad_end _ _ _ _ Hbad _ _ _ _ Hl).
  - intros Hnci Hlen Hq Hdef.
    destruct (GetTapAdapters_loop_completes h tapHardwareId members 0 []
                ltac:(lia) Hq Hdef) as (r & t & Hrun & _).
    exists t. unfold GetTapAdapters. rewrite tbind_emit, Hdevs, Hnci.
    rewrite <- (app_nil_r members), GetTapAdapters_loop_app, Hrun, tbind_Return.
    simpl. destruct (Z.eqb_spec lastError ERROR_NO_MORE_ITEMS); [contradiction|].
    simpl. now rewrite app_nil_r.
Qed.

Lemma GetTapAdapters_fatal_failures_witness :
  exists t,
    GetTapAdapters Examples.interrupted TAP_HARDWARE_ID
    = (Throw (WindowsError 5
         "SetupDiEnumDeviceInfo() failed while enumerating network adapters"),
       GetClassDevs :: t ++ [DestroyDeviceInfoList]).
Proof.
  apply (proj2 (proj2 (GetTapAdapters_fatal_failures Examples.interrupted
                         TAP_HARDWARE_ID
                         (map Fake.device [Examples.ethernet; Examples.mullvad]) 5
                         eq_refl)
                 ltac:(vm_compute; discriminate))).
  - reflexivity.
  - vm_compute. discriminate.
  - intros d Hin. simpl in Hin.
    destruct Hin as [<-|[<-|[]]]; eexists; vm_compute; reflexivity.
  - intros d Hin _. simpl in Hin.
    destruct Hin as [<-|[<-|[]]]; vm_compute; discriminate.
Defined.

Lemma emplace_new (x : NetworkAdapter) (s : set) :
  (forall y, In y s -> guid y <> guid x) -> In x (emplace x s).
Proof.
  induction s as [|y s IH]; intros Hnew; simpl; [now left|].
  destruct (NetworkAdapter_lt x y) eqn:Exy; [now left|].
  destruct (NetworkAdapter_lt y x) eqn:Eyx.
  - right. apply IH. intros z Hz. apply Hnew. now right.
  - elim (Hnew y (or_introl eq_refl)). apply lex_compare_total.
    + intros H. apply NetworkAdapter_lt_spec in H. congruence.
    + intros H. apply NetworkAdapter_lt_spec in H. congruence.
Qed.

(** X20.  When several present devices give the same identifying string,
    the set keeps the record of the one enumerated first: a device whose
    record can be built, and before which no device yields a record with
    the same guid, has its own record in the returned set. *)
Theorem GetTapAdapters_first_device_wins
    (h : Host) (tapHardwareId : wstring) (adapters : set) (t : list event)
    (front rest : list Device) (d : Device) (lastError : DWORD) (a : NetworkAdapter) :
  SetupDiGetClassDevs h = inr (front ++ d :: rest, lastError) ->
  GetTapAdapters h tapHardwareId = (Return adapters, t) ->
  carries tapHardwareId d ->
  construct_NetworkAdapter h d = Return a ->
  (forall d' a', In d' front -> carries tapHardwareId d' ->
     construct_NetworkAdapter h d' = Return a' -> guid a' <> guid a) ->
  In a adapters.
Proof.
  intros Hdevs Hrun Hc Hb Hfirst.
  destruct (GetTapAdapters_Return _ _ _ _ Hrun)
    as (members & lastError' & t' & Hdevs' & _ & Hloop & _).
  rewrite Hdevs in Hdevs'. injection Hdevs' as <- <-.
  rewrite GetTapAdapters_loop_app in Hloop.
  destruct (GetTapAdapters_loop h tapHardwareId front ERROR_NO_MORE_ITEMS 0 [])
    as [[s'|e|] t1] eqn:Hfront; try discriminate Hloop.
  rewrite tbind_Return in Hloop.
  destruct (GetTapAdapters_loop h tapHardwareId (d :: rest) lastError
              (0 + Z.of_nat (List.length front)) s') as [o t2] eqn:Hd.
  simpl in Hloop. injection Hloop as -> _.
  rewrite GetTapAdapters_loop_cons in Hd. cbv zeta in Hd.
  destruct Hc as (value & Hq & Heq). rewrite Hq in Hd.
  apply wcscmp_eq in Heq. rewrite Heq, Hb in Hd. cbv iota in Hd.
  change (0 =? 0) with true in Hd. cbv iota in Hd.
  destruct (0 + Z.of_nat (List.length front) =? INT_MAX); [discriminate Hd|].
  apply (proj1 (GetTapAdapters_loop_keeps _ _ _ _ _ _ _ _ Hd)).
  apply emplace_new. intros y Hy.
  destruct (GetTapAdapters_loop_provenance _ _ _ _ _ _ _ Hfront y Hy)
    as (d' & Hin & Hc' & Hb').
  exact (Hfirst d' y Hin Hc' Hb').
Qed.

Lemma GetTapAdapters_first_device_wins_witness :
  In (Fake.record Examples.old_mullvad) [Fake.record Examples.old_mullvad].
Proof.
  apply (GetTapAdapters_first_device_wins Examples.duplicated
           DEPRECATED_TAP_HARDWARE_ID
           [Fake.record Examples.old_mullvad] [GetClassDevs; DestroyDeviceInfoList]
           [Fake.device Examples.ethernet] [Fake.device Examples.twin]
           (Fake.device Examples.old_mullvad) ERROR_NO_MORE_ITEMS).
  - reflexivity.
  - vm_compute. reflexivity.
  - eexists. split; vm_compute; reflexivity.
  - vm_compute. reflexivity.
  - intros d' a' [<-|[]] (value & Hq & _). vm_compute in Hq. discriminate Hq.
Defined.

Lemma readers_no_nul (d : Device) :
  (forall g, GetNetCfgInstanceId d = Return g ->
     ~ In 0 g /\ Z.of_nat (List.length g) <= MAX_PATH + 1)
  /\ (forall property v, GetDeviceStringProperty d property = Return v -> ~ In 0 v)
  /\ (forall v, GetDeviceInstanceId d = Return v -> ~ In 0 v).
Proof.
  split; [|split].
  - intros g. unfold GetNetCfgInstanceId.
    destruct (SetupDiOpenDevRegKey d); [discriminate|].
    destruct (RegGetValueW_NetCfgInstanceId d _) as [[status written] strSize].
    destruct (negb (status =? ERROR_SUCCESS)); [discriminate|].
    destruct (Z.ltb_spec (strSize / sizeof_wchar_t) (MAX_PATH + sizeof_wchar_t))
      as [Hlt|]; [|discriminate].
    intros H. injection H as <-.
    unfold store. rewrite c_str_before_nul. split; [apply c_str_no_nul|].
    pose proof (c_str_length
      (firstn (Z.to_nat (strSize / sizeof_wchar_t))
              (buffer (MAX_PATH + sizeof_wchar_t) written))) as Hlen.
    rewrite length_firstn, buffer_length in Hlen.
    set (q := strSize / sizeof_wchar_t) in *.
    unfold MAX_PATH, sizeof_wchar_t in Hlt, Hlen |- *.
    change (260 + 2) with 262 in Hlt, Hlen. clearbody q. lia.
  - intros property v. unfold GetDeviceStringProperty.
    destruct (SetupDiGetDevicePropertyW_size d property) as [[st le] rs].
    destruct (negb st && negb (le =? ERROR_INSUFFICIENT_BUFFER)); [discriminate|].
    destruct (SetupDiGetDevicePropertyW_fill _ _ _); [discriminate|].
    intros H. injection H as <-. apply c_str_no_nul.
  - intros v. unfold GetDeviceInstanceId.
    destruct (SetupDiGetDeviceInstanceIdW_fill _ _); [discriminate|].
    intros H. injection H as <-. apply c_str_no_nul.
Qed.

(** X21.  Every record of the set [GetTapAdapters] returns is well formed:
    its guid, name and device instance id are C strings (no NUL in them),
    and its guid has at most MAX_PATH + 1 characters and is a string
    [Guid::FromString] accepts. *)
Theorem GetTapAdapters_records_well_formed
    (h : Host) (tapHardwareId : wstring) (adapters : set) (t : list event) :
  GetTapAdapters h tapHardwareId = (Return adapters, t) ->
  forall r, In r adapters ->
    ~ In 0 (guid r) /\ ~ In 0 (name r) /\ ~ In 0 (deviceInstanceId r)
    /\ Z.of_nat (List.length (guid r)) <= MAX_PATH + 1
    /\ exists guidObj, Guid_FromString h (guid r) = inr guidObj.
Proof.
  intros Hrun r Hr.
  destruct (GetTapAdapters_Return _ _ _ _ Hrun)
    as (members & lastError & t' & _ & _ & Hloop & _).
  destruct (GetTapAdapters_loop_provenance _ _ _ _ _ _ _ Hloop r Hr)
    as (d & _ & _ & Hb).
  apply construct_NetworkAdapter_Return in Hb.
  destruct Hb as (Hg & Hn & (guidObj & Hparse & _) & Hi).
  destruct (readers_no_nul d) as (Hguid & Hname & Hinst).
  destruct (Hguid _ Hg) as [Hg0 Hglen].
  repeat split; eauto.
Qed.

Lemma GetTapAdapters_records_well_formed_witness :
  ~ In 0 (guid (Fake.record Examples.old_other))
  /\ ~ In 0 (name (Fake.record Examples.old_other))
  /\ ~ In 0 (deviceInstanceId (Fake.record Examples.old_other))
  /\ Z.of_nat (List.length (guid (Fake.record Examples.old_other))) <= MAX_PATH + 1
  /\ exists guidObj,
       Guid_FromString Examples.upgraded (guid (Fake.record Examples.old_other))
       = inr guidObj.
Proof.
  apply (GetTapAdapters_records_well_formed Examples.upgraded
           DEPRECATED_TAP_HARDWARE_ID
           [Fake.record Examples.old_mullvad; Fake.record Examples.old_other]
           [GetClassDevs; DestroyDeviceInfoList]).
  - vm_compute. reflexivity.
  - right. left. reflexivity.
Defined.

(** ** Handles, removals and their order *)

Import Traces.

Lemma GetTapAdapters_loop_logs (h : Host) (tapHardwareId : wstring)
    (members : list Device) (lastError : DWORD) :
  forall i s,
    Forall is_log (snd (GetTapAdapters_loop h tapHardwareId members lastError i s)).
Proof.
  induction members as [|d rest IH]; intros i s.
  - simpl. destruct (lastError =? ERROR_NO_MORE_ITEMS); constructor.
  - assert (Hnext : forall s',
      Forall is_log
        (snd (if i =? INT_MAX then undefined
              else GetTapAdapters_loop h tapHardwareId rest lastError (i + 1) s'))).
    { intros s'. destruct (i =? INT_MAX); [constructor | apply IH]. }
    rewrite GetTapAdapters_loop_cons. cbv zeta.
    destruct (GetDeviceRegistryStringProperty d SPDRP_HARDWAREID) as [[value|]|e|];
      try (now constructor); try apply Hnext.
    destruct (wcscmp (c_str value) (c_str tapHardwareId) =? 0); [|apply Hnext].
    destruct (construct_NetworkAdapter h d);
      try (now constructor); try apply Hnext.
    constructor; [|apply Hnext]. unfold is_log, skipped. eauto.
Qed.

Lemma GetTapAdapters_trace (h : Host) (tapHardwareId : wstring) :
  match SetupDiGetClassDevs h with
  | inl lastError =>
      GetTapAdapters h tapHardwareId
      = (Throw (WindowsError lastError "SetupDiGetClassDevs() failed"), [GetClassDevs])
  | inr _ =>
      exists logs,
        Forall is_log logs
        /\ snd (GetTapAdapters h tapHardwareId)
           = match fst (GetTapAdapters h tapHardwareId) with
             | Undefined => GetClassDevs :: logs
             | _ => GetClassDevs :: logs ++ [DestroyDeviceInfoList]
             end
  end.
Proof.
  unfold GetTapAdapters. rewrite tbind_emit.
  destruct (SetupDiGetClassDevs h) as [err|[members lastError]]; [reflexivity|].
  destruct (Nci_ctor h) as [e|].
  - exists []. split; [constructor | reflexivity].
  - pose proof (GetTapAdapters_loop_logs h tapHardwareId members lastError 0 [])
      as Hlogs.
    destruct (GetTapAdapters_loop h tapHardwareId members lastError 0 [])
      as [[r|e|] t]; exists t; (split; [exact Hlogs | reflexivity]).
Qed.

(** X7.  [GetTapAdapters] takes the device list once and, unless its
    behaviour is undefined, gives it back exactly once, as the last thing
    it does, whether it returns or throws; between the two it only writes
    log lines.  When the list cannot be taken it throws without a release. *)
Theorem GetTapAdapters_releases_handle (h : Host) (tapHardwareId : wstring) :
  (forall lastError,
     SetupDiGetClassDevs h = inl lastError ->
     GetTapAdapters h tapHardwareId
     = (Throw (WindowsError lastError "SetupDiGetClassDevs() failed"), [GetClassDevs]))
  /\ (forall devs,
        SetupDiGetClassDevs h = inr devs ->
        fst (GetTapAdapters h tapHardwareId) <> Undefined ->
        exists logs,
          Forall is_log logs
          /\ snd (GetTapAdapters h tapHardwareId)
             = GetClassDevs :: logs ++ [DestroyDeviceInfoList]).
Proof.
  pose proof (GetTapAdapters_trace h tapHardwareId) as H.
  split.
  - intros err Hd. now rewrite Hd in H.
  - intros devs Hd Hdef. rewrite Hd in H. destruct H as (logs & Hlogs & Ht).
    exists logs. split; [exact Hlogs|].
    destruct (fst (GetTapAdapters h tapHardwareId)); [exact Ht | exact Ht|].
    now elim Hdef.
Qed.

Lemma GetTapAdapters_releases_handle_witness :
  exists logs,
    Forall is_log logs
    /\ snd (GetTapAdapters Examples.interrupted TAP_HARDWARE_ID)
       = GetClassDevs :: logs ++ [DestroyDeviceInfoList].
Proof.
  apply (proj2 (GetTapAdapters_releases_handle Examples.interrupted TAP_HARDWARE_ID)
           (map Fake.device [Examples.ethernet; Examples.mullvad], 5)).
  - reflexivity.
  - vm_compute. discriminate.
Defined.




Lemma removals_app (t u : list event) : removals (t ++ u) = removals t ++ removals u.
Proof.
  induction t as [|ev t IH]; simpl; [reflexivity|].
  destruct ev; simpl; now rewrite IH.
Qed.

Lemma removals_In (t : list event) (j : Z) :
  In j (removals t) <-> In (RemoveDevice j) t.
Proof.
  induction t as [|ev t IH]; simpl; [tauto|].
  destruct ev; simpl; rewrite IH; split;
    try (intros [H|H]; [discriminate H | exact H]); try (intros H; now right).
  - intros [->|H]; auto.
  - intros [H|H]; [injection H as ->; now left | now right].
Qed.

Lemma removals_logs (t : list event) : Forall is_log t -> removals t = [].
Proof.
  induction 1 as [|ev t [m ->] _ IH]; simpl; auto.
Qed.

Lemma DeleteOldMullvadAdapter_loop_in_order (mullvadGuid : wstring)
    (members : list Device) (lastError : DWORD) :
  forall i n,
    StronglySorted Z.lt
      (removals (snd (DeleteOldMullvadAdapter_loop mullvadGuid members lastError i n))).
Proof.
  induction members as [|d rest IH]; intros i n.
  - simpl. destruct (lastError =? ERROR_NO_MORE_ITEMS); constructor.
  - assert (Hnext : forall n',
      StronglySorted Z.lt
        (removals (snd (if i =? INT_MAX then undefined
                        else DeleteOldMullvadAdapter_loop mullvadGuid rest lastError
                               (i + 1) n')))).
    { intros n'. destruct (i =? INT_MAX); [constructor | apply IH]. }
    assert (Hafter : forall n',
      Forall (Z.lt i)
        (removals (snd (if i =? INT_MAX then undefined
                        else DeleteOldMullvadAdapter_loop mullvadGuid rest lastError
                               (i + 1) n')))).
    { intros n'. apply Forall_forall. intros j Hj. apply removals_In in Hj.
      destruct (i =? INT_MAX); [destruct Hj|].
      apply DeleteOldMullvadAdapter_loop_requests_from in Hj. lia. }
    rewrite DeleteOldMullvadAdapter_loop_cons. cbv zeta.
    destruct (GetDeviceRegistryStringProperty d SPDRP_HARDWAREID) as [[value|]|e|];
      try (now constructor); try apply Hnext.
    destruct (wcscmp DEPRECATED_TAP_HARDWARE_ID (c_str value) =? 0); [|apply Hnext].
    destruct (GetNetCfgInstanceId d); try (now constructor).
    destruct (compare a mullvadGuid =? 0).
    + destruct (SetupDiRemoveDevice d); simpl.
      * constructor; constructor.
      * constructor; [apply Hnext | apply Hafter].
    + destruct (n =? INT_MAX); [constructor | apply Hnext].
Qed.

(** What a returning [DeleteOldMullvadAdapter] has gone through. *)
Lemma DeleteOldMullvadAdapter_Return (h : Host) (result : DeletionResult)
    (t : list event) :
  DeleteOldMullvadAdapter h = (Return result, t) ->
  exists tapAdapters t0 mullvadAdapter members lastError n tl,
    GetTapAdapters h DEPRECATED_TAP_HARDWARE_ID = (Return tapAdapters, t0)
    /\ FindMullvadAdapter tapAdapters = Some mullvadAdapter
    /\ SetupDiGetClassDevs h = inr (members, lastError)
    /\ DeleteOldMullvadAdapter_loop (guid mullvadAdapter) members lastError 0 0
       = (Return n, tl)
    /\ t = t0 ++ GetClassDevs :: tl ++ [DestroyDeviceInfoList].
Proof.
  intros Hrun.
  destruct (GetTapAdapters h DEPRECATED_TAP_HARDWARE_ID) as [[ta|e|] t0] eqn:Henum;
    try (unfold DeleteOldMullvadAdapter in Hrun; rewrite Henum in Hrun;
         discriminate Hrun).
  destruct (FindMullvadAdapter ta) as [m|] eqn:Hfind.
  - destruct (GetTapAdapters_Return _ _ _ _ Henum)
      as (members & lastError & _ & Hdevs & _).
    rewrite (DeleteOldMullvadAdapter_found _ _ _ _ _ _ Henum Hfind Hdevs) in Hrun.
    destruct (DeleteOldMullvadAdapter_loop (guid m) members lastError 0 0)
      as [[n|e|] tl] eqn:Hloop; try discriminate Hrun.
    injection Hrun as _ <-.
    exists ta, t0, m, members, lastError, n, tl. auto.
  - unfold DeleteOldMullvadAdapter in Hrun.
    rewrite Henum, tbind_Return, Hfind in Hrun. discriminate Hrun.
Qed.

Lemma DeleteOldMullvadAdapter_removals (h : Host) :
  removals (snd (DeleteOldMullvadAdapter h)) = []
  \/ exists mullvadGuid members lastError,
       removals (snd (DeleteOldMullvadAdapter h))
       = removals (snd (DeleteOldMullvadAdapter_loop mullvadGuid members lastError 0 0)).
Proof.
  assert (Hquiet : removals (snd (GetTapAdapters h DEPRECATED_TAP_HARDWARE_ID)) = []).
  { destruct (removals (snd (GetTapAdapters h DEPRECATED_TAP_HARDWARE_ID)))
      as [|j rest] eqn:E; [reflexivity|].
    assert (Hj : In j (j :: rest)) by now left.
    rewrite <- E in Hj. apply removals_In in Hj.
    elim (GetTapAdapters_requests_nothing _ _ _ Hj). }
  unfold DeleteOldMullvadAdapter.
  destruct (GetTapAdapters h DEPRECATED_TAP_HARDWARE_ID) as [[ta|e|] t0];
    simpl in Hquiet; [|left; exact Hquiet..].
  rewrite tbind_Return. cbn [snd]. rewrite removals_app, Hquiet. cbn [app].
  destruct (FindMullvadAdapter ta) as [m|]; [|left; reflexivity].
  rewrite tbind_emit. cbn [snd removals].
  destruct (SetupDiGetClassDevs h) as [err|[members lastError]]; [left; reflexivity|].
  right. exists (guid m), members, lastError.
  destruct (DeleteOldMullvadAdapter_loop (guid m) members lastError 0 0)
    as [[n|e|] tl]; simpl; rewrite ?removals_app; simpl; now rewrite ?app_nil_r.
Qed.

(** X9.  [DeleteOldMullvadAdapter] asks for removals in the order of the
    device list, and for no device twice: the member indices of its removal
    requests are strictly increasing. *)
Theorem DeleteOldMullvadAdapter_removes_in_order (h : Host) :
  StronglySorted Z.lt (removals (snd (DeleteOldMullvadAdapter h)))
  /\ NoDup (removals (snd (DeleteOldMullvadAdapter h))).
Proof.
  assert (Hs : StronglySorted Z.lt (removals (snd (DeleteOldMullvadAdapter h)))).
  { destruct (DeleteOldMullvadAdapter_removals h) as [-> | (g & members & le & ->)];
      [constructor | apply DeleteOldMullvadAdapter_loop_in_order]. }
  split; [exact Hs|].
  induction Hs as [|j rest Hs IH Hj]; constructor; [|exact IH].
  intros Hin. rewrite Forall_forall in Hj. specialize (Hj j Hin). lia.
Qed.

Lemma probe_In (tapAdapters : set) (indices : list nat) (b : NetworkAdapter) :
  probe tapAdapters indices = Some b -> In b tapAdapters.
Proof.
  induction indices as [|i rest IH]; simpl; [discriminate|].
  destruct (findByAlias tapAdapters (suffixed_alias i)) as [b'|] eqn:E; [|exact IH].
  intros H. injection H as <-. exact (proj1 (findByAlias_Some _ _ _ E)).
Qed.

Lemma FindMullvadAdapter_In (tapAdapters : set) (b : NetworkAdapter) :
  FindMullvadAdapter tapAdapters = Some b -> In b tapAdapters.
Proof.
  unfold FindMullvadAdapter. destruct (empty tapAdapters); [discriminate|].
  destruct (findByAlias tapAdapters baseAlias) as [b'|] eqn:E.
  - intros H. injection H as <-. exact (proj1 (findByAlias_Some _ _ _ E)).
  - apply probe_In.
Qed.

(** X10.  When [DeleteOldMullvadAdapter] returns a result, it has removed
    something: the adapter the matcher chose came from a present device
    with the legacy hardware id, the second pass over the devices meets that
    device again, and its removal was requested and carried out. *)
Theorem DeleteOldMullvadAdapter_removes_something
    (h : Host) (result : DeletionResult) (t : list event) :
  DeleteOldMullvadAdapter h = (Return result, t) ->
  exists k d members lastError,
    SetupDiGetClassDevs h = inr (members, lastError)
    /\ nth_error members k = Some d
    /\ carries DEPRECATED_TAP_HARDWARE_ID d
    /\ In (RemoveDevice (Z.of_nat k)) t
    /\ SetupDiRemoveDevice d = inr tt.
Proof.
  intros Hrun.
  destruct (DeleteOldMullvadAdapter_Return _ _ _ Hrun)
    as (ta & t0 & m & members & lastError & n & tl & Henum & Hfind & Hdevs & Hloop & ->).
  destruct (GetTapAdapters_Return _ _ _ _ Henum)
    as (members' & lastError' & t' & Hdevs' & _ & Heloop & _).
  rewrite Hdevs in Hdevs'. injection Hdevs' as <- <-.
  destruct (GetTapAdapters_loop_provenance _ _ _ _ _ _ _ Heloop m
              (FindMullvadAdapter_In _ _ Hfind)) as (d & Hin & Hc & Hb).
  apply construct_NetworkAdapter_Return in Hb. destruct Hb as (Hg & _).
  destruct (In_nth_error _ _ Hin) as (k & Hk).
  destruct (DeleteOldMullvadAdapter_loop_Return _ _ _ _ _ _ _ Hloop) as (_ & _ & Hall).
  destruct (Hall k d Hk Hc) as (g & Hg' & Hyes & _).
  rewrite Hg in Hg'. injection Hg' as <-.
  destruct (Hyes eq_refl) as [Hreq Hrem].
  exists k, d, members, lastError. repeat split; auto.
  apply in_or_app. right. right. apply in_or_app. left. exact Hreq.
Qed.

Lemma DeleteOldMullvadAdapter_removes_something_witness :
  exists k d members lastError,
    SetupDiGetClassDevs Examples.upgraded = inr (members, lastError)
    /\ nth_error members k = Some d
    /\ carries DEPRECATED_TAP_HARDWARE_ID d
    /\ In (RemoveDevice (Z.of_nat k))
          [GetClassDevs; DestroyDeviceInfoList; GetClassDevs; RemoveDevice 2;
           DestroyDeviceInfoList]
    /\ SetupDiRemoveDevice d = inr tt.
Proof.
  apply (DeleteOldMullvadAdapter_removes_something Examples.upgraded
           SOME_REMAINING_TAP_ADAPTERS).
  vm_compute. reflexivity.
Defined.

(** X11.  A device with the legacy hardware id whose NetCfgInstanceId
    cannot be read is logged and passed over by the enumeration, but the
    second pass of [DeleteOldMullvadAdapter] reads it outside any handler:
    with such a device present the operation never returns a result. *)
Theorem DeleteOldMullvadAdapter_unreadable_legacy_device
    (h : Host) (members : list Device) (lastError : DWORD)
    (d : Device) (e : exception) :
  SetupDiGetClassDevs h = inr (members, lastError) ->
  In d members ->
  carries DEPRECATED_TAP_HARDWARE_ID d ->
  GetNetCfgInstanceId d = Throw e ->
  (forall rest i s,
     GetTapAdapters_loop h DEPRECATED_TAP_HARDWARE_ID (d :: rest) lastError i s
     = let next :=
         if i =? INT_MAX then undefined
         else GetTapAdapters_loop h DEPRECATED_TAP_HARDWARE_ID rest lastError
                (i + 1) s in
       (fst next, skipped h e :: snd next))
  /\ forall result t, DeleteOldMullvadAdapter h <> (Return result, t).
Proof.
  intros Hdevs Hin Hc Hg. split.
  - intros rest i s. apply GetTapAdapters_loop_skipped; [exact Hc|].
    unfold construct_NetworkAdapter. now rewrite Hg.
  - intros result t Hrun.
    destruct (DeleteOldMullvadAdapter_Return _ _ _ Hrun)
      as (ta & t0 & m & members' & lastError' & n & tl & _ & _ & Hdevs' & Hloop & _).
    rewrite Hdevs in Hdevs'. injection Hdevs' as <- <-.
    destruct (In_nth_error _ _ Hin) as (k & Hk).
    destruct (DeleteOldMullvadAdapter_loop_Return _ _ _ _ _ _ _ Hloop) as (_ & _ & Hall).
    destruct (Hall k d Hk Hc) as (g & Hg' & _).
    rewrite Hg in Hg'. discriminate Hg'.
Qed.

Lemma DeleteOldMullvadAdapter_unreadable_legacy_device_witness :
  (forall rest i s,
     GetTapAdapters_loop Examples.legacy_broken DEPRECATED_TAP_HARDWARE_ID
       (Fake.broken_device Examples.old_other 5 :: rest) ERROR_NO_MORE_ITEMS i s
     = let next :=
         if i =? INT_MAX then undefined
         else GetTapAdapters_loop Examples.legacy_broken DEPRECATED_TAP_HARDWARE_ID
                rest ERROR_NO_MORE_ITEMS (i + 1) s in
       (fst next,
        skipped Examples.legacy_broken (WindowsError 5 "SetupDiOpenDevRegKey")
          :: snd next))
  /\ forall result t,
       DeleteOldMullvadAdapter Examples.legacy_broken <> (Return result, t).
Proof.
  apply (DeleteOldMullvadAdapter_unreadable_legacy_device
           Examples.legacy_broken
           [Fake.device Examples.old_mullvad;
            Fake.broken_device Examples.old_other 5]
           ERROR_NO_MORE_ITEMS
           (Fake.broken_device Examples.old_other 5)
           (WindowsError 5 "SetupDiOpenDevRegKey")
           eq_refl
           (or_intror (or_introl eq_refl))
           (ex_intro _ (L "tap0901") (conj eq_refl eq_refl))
           eq_refl).
Defined.

(** On that host the product's adapter is removed before the operation
    fails. *)
Example DeleteOldMullvadAdapter_partial_removal :
  DeleteOldMullvadAdapter Examples.legacy_broken
  = (Throw (WindowsError 5 "SetupDiOpenDevRegKey"),
     [GetClassDevs;
      skipped Examples.legacy_broken (WindowsError 5 "SetupDiOpenDevRegKey");
      DestroyDeviceInfoList; GetClassDevs; RemoveDevice 0; DestroyDeviceInfoList]).
Proof. vm_compute. reflexivity. Qed.

(** ** More on the matcher *)

Lemma probe_None (tapAdapters : set) (indices : list nat) :
  probe tapAdapters indices = None ->
  forall i, In i indices -> unused tapAdapters (suffixed_alias i).
Proof.
  induction indices as [|j rest IH]; simpl; [intros _ i []|].
  destruct (findByAlias tapAdapters (suffixed_alias j)) eqn:E; [discriminate|].
  intros H i [<-|Hi]; [now apply findByAlias_None | now apply IH].
Qed.

Lemma probe_Some (tapAdapters : set) (indices : list nat) (b : NetworkAdapter) :
  probe tapAdapters indices = Some b ->
  exists i, In i indices /\ findByAlias tapAdapters (suffixed_alias i) = Some b.
Proof.
  induction indices as [|j rest IH]; simpl; [discriminate|].
  destruct (findByAlias tapAdapters (suffixed_alias j)) as [b'|] eqn:E.
  - intros H. injection H as <-. eauto.
  - intros H. destruct (IH H) as (i & Hi & Hf). eauto.
Qed.

(** The name under which [FindMullvadAdapter] found its result. *)
Lemma FindMullvadAdapter_Some (tapAdapters : set) (b : NetworkAdapter) :
  FindMullvadAdapter tapAdapters = Some b ->
  exists alias', In alias' product_aliases /\ findByAlias tapAdapters alias' = Some b.
Proof.
  unfold FindMullvadAdapter. destruct (empty tapAdapters); [discriminate|].
  destruct (findByAlias tapAdapters baseAlias) as [b'|] eqn:E.
  - intros H. injection H as <-. exists baseAlias. split; [now left | exact E].
  - intros H. destruct (probe_Some _ _ _ H) as (i & Hi & Hf).
    exists (suffixed_alias i). split; [|exact Hf].
    rewrite <- suffixed_aliases. right. now apply in_map.
Qed.

(** X12.  [FindMullvadAdapter] only ever returns an adapter of the set it
    was given, and one whose alias is one of the eleven names up to case;
    it returns nothing exactly when none of the eleven names is in use. *)
Theorem FindMullvadAdapter_sound_and_complete (tapAdapters : set) :
  (forall b, FindMullvadAdapter tapAdapters = Some b ->
     In b tapAdapters
     /\ exists alias', In alias' product_aliases
                       /\ equal_ignoring_case (alias b) alias')
  /\ (FindMullvadAdapter tapAdapters = None <->
      forall alias', In alias' product_aliases -> unused tapAdapters alias').
Proof.
  split.
  - intros b Hb. destruct (FindMullvadAdapter_Some _ _ Hb) as (nm & Hnm & Hf).
    apply findByAlias_Some in Hf. destruct Hf as [Hin Heq]. eauto.
  - split.
    + unfold FindMullvadAdapter.
      destruct tapAdapters as [|x s]; [intros _ nm _ a []|]. simpl empty. cbv iota.
      destruct (findByAlias (x :: s) baseAlias) eqn:E; [discriminate|].
      intros Hp nm Hnm. rewrite <- suffixed_aliases in Hnm.
      destruct Hnm as [<-|Hnm]; [now apply findByAlias_None|].
      apply in_map_iff in Hnm. destruct Hnm as (i & <- & Hi).
      exact (probe_None _ _ Hp i Hi).
    + intros Hnone. unfold FindMullvadAdapter.
      destruct (empty tapAdapters); [reflexivity|].
      assert (Hbase : findByAlias tapAdapters baseAlias = None).
      { apply findByAlias_None, Hnone. now left. }
      rewrite Hbase. apply probe_none.
      intros j Hj. apply Hnone. rewrite <- suffixed_aliases. right.
      apply in_map. exact Hj.
Qed.

Lemma find_first {A : Type} (f : A -> bool) (l : list A) (b : A) :
  find f l = Some b ->
  exists before after,
    l = before ++ b :: after /\ forall x, In x before -> f x = false.
Proof.
  induction l as [|x l IH]; simpl; [discriminate|].
  destruct (f x) eqn:E.
  - intros H. injection H as <-. exists [], l. split; [reflexivity | intros ? []].
  - intros H. destruct (IH H) as (before & after & -> & Hb).
    exists (x :: before), after. split; [reflexivity|].
    intros y [<-|Hy]; auto.
Qed.

Lemma StronglySorted_app_cons {A : Type} (R : A -> A -> Prop)
    (before after : list A) (b : A) :
  StronglySorted R (before ++ b :: after) -> Forall (R b) after.
Proof.
  induction before as [|x before IH]; simpl; intros H;
    inversion H; subst; auto.
Qed.

(** X13.  Among adapters that go by the same name the one with the least
    identifying string is chosen: in a set as [GetTapAdapters] builds it,
    the adapter [FindMullvadAdapter] returns under a name comes before every
    other adapter of the set that goes by that name. *)
Theorem FindMullvadAdapter_least_guid (tapAdapters : set) (b : NetworkAdapter) :
  StronglySorted guid_lt tapAdapters ->
  FindMullvadAdapter tapAdapters = Some b ->
  exists alias',
    In alias' product_aliases
    /\ equal_ignoring_case (alias b) alias'
    /\ forall a, In a tapAdapters -> equal_ignoring_case (alias a) alias' ->
         a = b \/ guid_lt b a.
Proof.
  intros Hs Hb. destruct (FindMullvadAdapter_Some _ _ Hb) as (nm & Hnm & Hf).
  exists nm. split; [exact Hnm|].
  split; [exact (proj2 (findByAlias_Some _ _ _ Hf))|].
  unfold findByAlias in Hf.
  destruct (find_first _ _ _ Hf) as (before & after & Heq & Hbefore).
  rewrite Heq in Hs. pose proof (StronglySorted_app_cons _ _ _ _ Hs) as Hafter.
  rewrite Forall_forall in Hafter.
  intros a Ha Hmatch. rewrite Heq in Ha.
  apply in_app_or in Ha. destruct Ha as [Ha|[<-|Ha]]; auto.
  specialize (Hbefore a Ha). simpl in Hbefore.
  apply _wcsicmp_eq in Hmatch. rewrite Hmatch in Hbefore. discriminate.
Qed.

Lemma FindMullvadAdapter_least_guid_witness :
  exists alias',
    In alias' product_aliases
    /\ equal_ignoring_case
         (alias (Fake.record (Examples.legacy "{2}" "MULLVAD"))) alias'
    /\ forall a, In a Examples.two_mullvads -> equal_ignoring_case (alias a) alias' ->
         a = Fake.record (Examples.legacy "{2}" "MULLVAD")
         \/ guid_lt (Fake.record (Examples.legacy "{2}" "MULLVAD")) a.
Proof.
  apply (FindMullvadAdapter_least_guid Examples.two_mullvads).
  - repeat constructor.
  - reflexivity.
Defined.

Lemma FindMullvadAdapter_sound_and_complete_witness :
  In (Fake.record (Examples.legacy "{3}" "Mullvad-1")) Examples.three_aliases
  /\ exists alias',
       In alias' product_aliases
       /\ equal_ignoring_case
            (alias (Fake.record (Examples.legacy "{3}" "Mullvad-1"))) alias'.
Proof.
  apply (proj1 (FindMullvadAdapter_sound_and_complete Examples.three_aliases)).
  reflexivity.
Defined.

(** ** More on the exported operations *)

Lemma getAdapter_requests_nothing (h : Host) (j : Z) :
  ~ In (RemoveDevice j) (snd (getAdapter h)).
Proof.
  unfold getAdapter.
  pose proof (GetTapAdapters_requests_nothing h TAP_HARDWARE_ID j) as Hq.
  destruct (GetTapAdapters h TAP_HARDWARE_ID) as [[added|e|] t]; simpl in Hq;
    [|exact Hq..].
  rewrite tbind_Return. cbn [snd]. intros H. apply in_app_or in H.
  destruct H as [H|H]; [exact (Hq H)|].
  destruct (1 <? size added).
  - destruct (LogAdapters_details (L "Enumerable network TAP adapters") added)
      as (details & Hlog & _).
    rewrite Hlog in H. simpl in H. destruct H as [H|[]]. discriminate H.
  - rewrite tbind_ret in H. unfold deref in H.
    destruct (nth_error added (begin added)); destruct H.
Qed.

(** X14.  Of the four exported operations only [RemoveOldMullvadTap] can
    remove a device: [Initialize] and [Deinitialize] touch no device at
    all, and [IdentifyNewAdapter] (like [getAdapter] and [GetTapAdapters]
    under it) never requests a removal. *)
Theorem only_RemoveOldMullvadTap_removes (h : Host) (p : plugin) :
  snd (Initialize h p) = []
  /\ snd (Deinitialize h p) = []
  /\ forall j,
       ~ In (RemoveDevice j) (snd (IdentifyNewAdapter h p))
       /\ ~ In (RemoveDevice j) (snd (getAdapter h))
       /\ forall tapHardwareId,
            ~ In (RemoveDevice j) (snd (GetTapAdapters h tapHardwareId)).
Proof.
  split; [|split].
  - unfold Initialize, PinDll. destruct (g_context p); [reflexivity|].
    destruct (GetModuleFileNameW_self h =? 0); reflexivity.
  - reflexivity.
  - intros j. split; [|split].
    + unfold IdentifyNewAdapter. destruct (g_context p); [|intros []].
      rewrite (try_catch_quiet_trace (getAdapter h)).
      apply getAdapter_requests_nothing.
    + apply getAdapter_requests_nothing.
    + intros hw. apply GetTapAdapters_requests_nothing.
Qed.

(** X15.  No exception leaves an exported operation: whatever the host
    does, each of the four returns to the installer or (the two that
    enumerate) runs into undefined behaviour; [Initialize] and
    [Deinitialize] always return.  [RemoveOldMullvadTap] and
    [IdentifyNewAdapter] leave [g_context] as it was. *)
Theorem exported_operations_do_not_throw (h : Host) (p : plugin) :
  (exists p', fst (Initialize h p) = Return p')
  /\ (exists p', fst (Deinitialize h p) = Return p' /\ g_context p' = None)
  /\ (forall e, fst (RemoveOldMullvadTap h p) <> Throw e)
  /\ (forall e, fst (IdentifyNewAdapter h p) <> Throw e)
  /\ (forall p', fst (RemoveOldMullvadTap h p) = Return p' ->
        g_context p' = g_context p)
  /\ (forall p', fst (IdentifyNewAdapter h p) = Return p' ->
        g_context p' = g_context p).
Proof.
  split; [|split; [|split; [|split; [|split]]]].
  - unfold Initialize, PinDll. destruct (g_context p); [simpl; eauto|].
    destruct (GetModuleFileNameW_self h =? 0); simpl; eauto.
  - simpl. eauto.
  - intros e. unfold RemoveOldMullvadTap.
    destruct (DeleteOldMullvadAdapter h) as [[[]|e'|] t]; discriminate.
  - intros e. unfold IdentifyNewAdapter. destruct (g_context p); [|discriminate].
    destruct (getAdapter h) as [[a|e'|] t]; discriminate.
  - intros p'. unfold RemoveOldMullvadTap.
    destruct (DeleteOldMullvadAdapter h) as [[[]|e'|] t]; simpl;
      intros H; try discriminate H; injection H as <-; reflexivity.
  - intros p'. unfold IdentifyNewAdapter. destruct (g_context p) eqn:E.
    + destruct (getAdapter h) as [[a|e'|] t]; simpl;
        intros H; try discriminate H; injection H as <-; exact E.
    + simpl. intros H. injection H as <-. exact E.
Qed.

Lemma exported_operations_do_not_throw_witness :
  g_context
    (pushint' RemoveOldMullvadTapStatus.SUCCESS_SOME_REMAINING_TAP_ADAPTERS
       (pushstring (L "") initial))
  = g_context initial.
Proof.
  apply (proj1 (proj2 (proj2 (proj2 (proj2
           (exported_operations_do_not_throw Examples.upgraded initial)))))).
  vm_compute. reflexivity.
Defined.

(** X16.  What [RemoveOldMullvadTap] leaves on the stack.  When
    [DeleteOldMullvadAdapter] returns, the status on top is
    SUCCESS_NO_REMAINING_TAP_ADAPTERS (1) or
    SUCCESS_SOME_REMAINING_TAP_ADAPTERS (2) according to the result, over
    the empty string.  When it throws, the status is GENERAL_ERROR (0) over
    the message of the exception, and the empty string pushed before the
    call is still beneath them: three entries instead of two. *)
Theorem RemoveOldMullvadTap_stack (h : Host) (p : plugin) :
  (forall result t,
     DeleteOldMullvadAdapter h = (Return result, t) ->
     exists p' status,
       RemoveOldMullvadTap h p = (Return p', t)
       /\ stacktop p'
          = RemoveOldMullvadTapStatus_entry status :: string_entry [] :: stacktop p
       /\ RemoveOldMullvadTapStatus.value status
          = match result with
            | NO_REMAINING_TAP_ADAPTERS => 1
            | SOME_REMAINING_TAP_ADAPTERS => 2
            end)
  /\ (forall e t,
        DeleteOldMullvadAdapter h = (Throw e, t) ->
        exists p',
          RemoveOldMullvadTap h p = (Return p', t)
          /\ stacktop p'
             = RemoveOldMullvadTapStatus_entry RemoveOldMullvadTapStatus.GENERAL_ERROR
                 :: string_entry (L (what h e)) :: string_entry [] :: stacktop p
          /\ RemoveOldMullvadTapStatus.value RemoveOldMullvadTapStatus.GENERAL_ERROR = 0).
Proof.
  unfold RemoveOldMullvadTap. split.
  - intros result t ->. destruct result; simpl; rewrite app_nil_r;
      eexists; eexists; (split; [reflexivity|]); split; reflexivity.
  - intros e t ->. simpl. rewrite app_nil_r.
    eexists. split; [reflexivity|]. split; reflexivity.
Qed.

Lemma RemoveOldMullvadTap_stack_witness :
  exists p',
    RemoveOldMullvadTap Examples.unpinned initial
    = (Return p', [GetClassDevs; DestroyDeviceInfoList])
    /\ stacktop p'
       = RemoveOldMullvadTapStatus_entry RemoveOldMullvadTapStatus.GENERAL_ERROR
           :: string_entry (L (what Examples.unpinned not_found))
           :: string_entry [] :: stacktop initial
    /\ RemoveOldMullvadTapStatus.value RemoveOldMullvadTapStatus.GENERAL_ERROR = 0.
Proof.
  apply (proj2 (RemoveOldMullvadTap_stack Examples.unpinned initial)).
  vm_compute. reflexivity.
Defined.

(** X17.  What [IdentifyNewAdapter] reports once [g_context] is set: with
    exactly one adapter of the current hardware id it pushes the adapter's
    alias under SUCCESS; with two or more, or when the enumeration throws,
    it pushes the message of the exception under GENERAL_ERROR.  In each
    case it has done what the enumeration did, and nothing is left on the
    stack but the two entries. *)
Theorem IdentifyNewAdapter_reports (h : Host) (p : plugin) :
  g_context p <> None ->
  (forall a t,
     GetTapAdapters h TAP_HARDWARE_ID = (Return [a], t) ->
     IdentifyNewAdapter h p
     = (Return (pushint SUCCESS (pushstring (c_str (alias a)) p)), t))
  /\ (forall added t,
        GetTapAdapters h TAP_HARDWARE_ID = (Return added, t) ->
        2 <= size added ->
        exists details,
          IdentifyNewAdapter h p
          = (Return (pushint GENERAL_ERROR
                       (pushstring (L "Identified more TAP adapters than expected") p)),
             t ++ [PluginLogWithDetails (L "Enumerable network TAP adapters") details]))
  /\ (forall e t,
        GetTapAdapters h TAP_HARDWARE_ID = (Throw e, t) ->
        IdentifyNewAdapter h p
        = (Return (pushint GENERAL_ERROR (pushstring (L (what h e)) p)), t)).
Proof.
  intros Hctx. unfold IdentifyNewAdapter.
  destruct (g_context p) as [c|]; [|now elim Hctx].
  unfold getAdapter. split; [|split].
  - intros a t ->. simpl. now rewrite !app_nil_r.
  - intros added t -> Hsize.
    assert (Hlt : (1 <? size added) = true) by (apply Z.ltb_lt; lia).
    destruct (LogAdapters_details (L "Enumerable network TAP adapters") added)
      as (details & Hlog & _).
    exists details. rewrite tbind_Return, Hlt, Hlog. simpl. now rewrite app_nil_r.
  - intros e t ->. simpl. now rewrite app_nil_r.
Qed.

Lemma IdentifyNewAdapter_reports_witness :
  IdentifyNewAdapter Examples.upgraded
    {| g_context := Some new_Context; stacktop := [] |}
  = (Return (pushint SUCCESS
               (pushstring (c_str (alias (Fake.record Examples.mullvad)))
                  {| g_context := Some new_Context; stacktop := [] |})),
     [GetClassDevs; DestroyDeviceInfoList]).
Proof.
  apply (proj1 (IdentifyNewAdapter_reports Examples.upgraded
                  {| g_context := Some new_Context; stacktop := [] |}
                  ltac:(discriminate))).
  vm_compute. reflexivity.
Defined.



(** ** The settings listener *)

Section SettingsListenerFacts.

Import SettingsListener.

Variable Settings : Type.

Lemma last_cons_default (x d : Settings) (l : list Settings) :
  last (x :: l) d = last l x.
Proof.
  revert x d. induction l as [|y l IH]; intros x d; [reflexivity|].
  change (last (x :: y :: l) d) with (last (y :: l) d). now rewrite !IH.
Qed.

Lemma last_after (l r : list Settings) (a d : Settings) :
  last (l ++ a :: r) d = last (a :: r) d.
Proof.
  induction l as [|x l IH]; [reflexivity|].
  cbn [app]. destruct (l ++ a :: r) as [|y rest] eqn:E.
  - destruct l; discriminate E.
  - exact IH.
Qed.

Lemma run_notifications (changes : list Settings) (settings : option Settings) :
  fold_left (perform Settings) (map (onSettingsChange Settings) changes) settings
  = match changes with
    | [] => settings
    | c :: rest => Some (last rest c)
    end.
Proof.
  revert settings. induction changes as [|c rest IH]; intros settings;
    [reflexivity|].
  cbn [map fold_left]. rewrite IH. destruct rest as [|r rest]; [reflexivity|].
  now rewrite last_cons_default.
Qed.

(** X19.  The settings fetched at start-up never replace settings the
    daemon has announced: whatever changes are announced before and after
    the fetched settings are committed, the field ends up holding the last
    announced change, and holds the fetched settings only when no change
    was announced. *)
Theorem fetched_settings_never_overwrite
    (before after : list Settings) (initialSettings : Settings) :
  run Settings (map (onSettingsChange Settings) before
                ++ fetched Settings initialSettings
                   :: map (onSettingsChange Settings) after)
  = Some (last (before ++ after) initialSettings).
Proof.
  unfold run. rewrite fold_left_app, run_notifications. cbn [fold_left].
  rewrite run_notifications.
  destruct before as [|b before], after as [|a after]; simpl perform;
    unfold fetchInitialSettings, handleNewSettings; f_equal.
  - cbn [app]. now rewrite last_cons_default.
  - rewrite app_nil_r. now rewrite last_cons_default.
  - rewrite last_after. now rewrite last_cons_default.
Qed.

End SettingsListenerFacts.
